(** * UM6 driver (src/main.cpp): configuration sequence, reset service,
      telemetry transforms and the connection loop.

    The node talks to three collaborators whose code is not part of
    main.cpp: the register transport ([um6::Comms], [um6::Registers]), the
    ROS parameter server and the ROS message bus.  Each of them is modelled
    by the interface main.cpp consumes; main.cpp itself is transcribed
    function by function.  Log lines (ROS_INFO, ROS_WARN, ROS_ERROR) have no
    effect on control flow and are left out, except for the rate-limited
    connection warning of the outer loop. *)

From Stdlib Require Import ZArith List String Bool Lia.
From Stdlib Require Import Floats.SpecFloat.
Import ListNotations.
Open Scope string_scope.
Open Scope list_scope.
Open Scope Z_scope.

(** ** IEEE binary64 values

    C++ [double] as [spec_float] with the binary64 parameters.  Only
    copying, negation and comparison are needed for the remap laws; the
    odometry block also multiplies, divides and takes square roots. *)

Module Double.

Definition double := spec_float.
Definition prec : Z := 53.
Definition emax : Z := 1024.

(** Conversion of an integer to [double] (exact below 2^53). *)
Definition of_Z (z : Z) : double := binary_normalize prec emax z 0 false.

Definition neg : double -> double := SFopp.
Definition mul : double -> double -> double := SFmul prec emax.
Definition add : double -> double -> double := SFadd prec emax.
Definition div : double -> double -> double := SFdiv prec emax.
Definition sqrt : double -> double := SFsqrt prec emax.

(** C++ [==] on doubles: [-0.0 == 0.0] holds, NaN equals nothing. *)
Definition eqb : double -> double -> bool := SFeqb.

(** Narrowing to [float] (std_msgs::Float32), round to nearest even. *)
Definition to_float32 (d : double) : double :=
  match d with
  | S754_finite s m e => binary_normalize 24 128 (cond_Zopp s (Zpos m)) e s
  | other => other
  end.

(** The literal [0.0314159265] of the odometry block, as binary64. *)
Definition lit_0_0314159265 : double :=
  S754_finite false 4527512156124764 (-57).

End Double.

Definition double : Type := Double.double.

(** ** Exceptions and the transport monad

    [std::runtime_error] and [std::logic_error] are the two exception
    classes main.cpp throws.  A thrown exception keeps the effects that
    happened before it, so a computation returns its outcome together with
    the transport state. *)

Inductive exn : Type :=
| runtime_error (what : string)
| logic_error (what : string).

Inductive outcome (A : Type) : Type :=
| Ok (a : A)
| Throw (e : exn).
Arguments Ok {A} a.
Arguments Throw {A} e.

(** Registers of [um6::Registers] that main.cpp touches. *)
Inductive RegId : Type :=
| COMMUNICATION | MISC_CONFIG
| ZERO_GYROS | RESET_EKF | SET_MAG_REF | SET_ACCEL_REF
| MAG_REF | ACCEL_REF | MAG_BIAS | ACCEL_BIAS | GYRO_BIAS | GPS_HOME
| QUAT | COVARIANCE | GYRO | ACCEL | MAG | EULER | TEMPERATURE
| GPS_STATUS | GPS_ABS | GPS_REL | GPS_COURSE_SPEED.

(** The command registers: written without a payload through
    [sendCommand]. *)
Definition is_command (id : RegId) : bool :=
  match id with
  | ZERO_GYROS | RESET_EKF | SET_MAG_REF | SET_ACCEL_REF => true
  | _ => false
  end.

(** What a field of an outgoing register was assigned: a raw value through
    [set], a scaled value through [set_scaled], or the content of a local
    [double] that was never initialised. *)
Inductive Field : Type :=
| Raw (v : Z)
| Scaled (v : double)
| Indeterminate.

(** [um6::Accessor<RegT>] on the outgoing side: the register it designates,
    its declared number of fields and the assignments made to it since the
    enclosing [um6::Registers] was constructed, oldest first. *)
Record Accessor : Type := mkAccessor {
  index : RegId;
  length : Z;
  stores : list (Z * Field)
}.

Definition set (reg : Accessor) (field : Z) (value : Z) : Accessor :=
  mkAccessor (index reg) (length reg) (stores reg ++ [(field, Raw value)]).

(** The argument is [None] when the local handed to [set_scaled] was left
    uninitialised by [ros::param::get]. *)
Definition set_scaled (reg : Accessor) (field : Z) (value : option double)
  : Accessor :=
  mkAccessor (index reg) (length reg)
    (stores reg ++
     [(field, match value with Some v => Scaled v | None => Indeterminate end)]).

(** Modelled from the spec: um6/comms.h is not under src/.  Section 6 gives
    the transport as [write_and_await_ack(register) -> success|failure];
    whether the k-th call of a connection is acknowledged is decided by the
    device, here by [acks k].  [sent] is the list of registers handed to
    the transport so far, oldest first. *)
Record Comms : Type := mkComms {
  acks : nat -> bool;
  sent : list Accessor
}.

Definition M (A : Type) : Type := Comms -> outcome A * Comms.

Definition ret {A} (a : A) : M A := fun s => (Ok a, s).

Definition throw {A} (e : exn) : M A := fun s => (Throw e, s).

Definition bind {A B} (c : M A) (k : A -> M B) : M B :=
  fun s =>
    match c s with
    | (Ok a, s') => k a s'
    | (Throw e, s') => (Throw e, s')
    end.

Definition lift {A} (o : outcome A) : M A := fun s => (o, s).

Declare Scope um6_scope.
Delimit Scope um6_scope with um6.
Notation "x <- c ;; k" := (bind c (fun x => k))
  (at level 100, c at next level, right associativity) : um6_scope.
Notation "c ;;; k" := (bind c (fun _ => k))
  (at level 100, right associativity) : um6_scope.
Open Scope um6_scope.

Definition sendWaitAck (reg : Accessor) : M bool :=
  fun s =>
    (Ok (acks s (List.length (sent s))), mkComms (acks s) (sent s ++ [reg])).

(** Operations issued by a computation started in state [s]. *)
Definition issued {A} (c : M A) (s : Comms) : list Accessor :=
  skipn (List.length (sent s)) (sent (snd (c s))).

(** A freshly opened connection whose acknowledgments follow [a]. *)
Definition connect (a : nat -> bool) : Comms := mkComms a [].

(** ** ROS parameter server

    The interface main.cpp consumes: [ros::param::has] and the typed
    [ros::param::get]; a typed read of a missing or ill-typed parameter
    yields nothing and leaves the caller's variable as it was. *)
Record ParamServer : Type := mkParamServer {
  has : string -> bool;
  get_int : string -> option Z;
  get_bool : string -> option bool;
  get_double : string -> option double;
  get_string : string -> option string
}.

(** [ros::param::param<T>(name, var, default)]. *)
Definition param {T} (value : option T) (default : T) : T :=
  match value with
  | Some v => v
  | None => default
  end.

(** ** Firmware constants

    um6/firmware_registers.h is not under src/; its macros are taken as a
    parameter of the model. *)
Record Firmware : Type := mkFirmware {
  UM6_BROADCAST_ENABLED : Z;
  UM6_GYROS_PROC_ENABLED : Z;
  UM6_ACCELS_PROC_ENABLED : Z;
  UM6_MAG_PROC_ENABLED : Z;
  UM6_QUAT_ENABLED : Z;
  UM6_EULER_ENABLED : Z;
  UM6_COV_ENABLED : Z;
  UM6_TEMPERATURE_ENABLED : Z;
  UM6_GPS_POSITION_ENABLED : Z;
  UM6_GPS_REL_POSITION_ENABLED : Z;
  UM6_GPS_COURSE_SPEED_ENABLED : Z;
  UM6_GPS_SAT_SUMMARY_ENABLED : Z;
  UM6_GPS_SAT_DATA_ENABLED : Z;
  UM6_BAUD_START_BIT : Z;
  UM6_GPS_BAUD_START_BIT : Z;
  UM6_QUAT_ESTIMATE_ENABLED : Z;
  UM6_MAG_UPDATE_ENABLED : Z;
  UM6_ACCEL_UPDATE_ENABLED : Z;
  UM6_GPS_MODE_START_BIT : Z;
  UM6_GPS_MODE_MASK : Z;
  UM6_GPS_HDOP_START_BIT : Z;
  UM6_GPS_HDOP_MASK : Z;
  UM6_GPS_VDOP_START_BIT : Z;
  UM6_GPS_VDOP_MASK : Z;
  UM6_GPS_SAT_COUNT_START_BIT : Z;
  UM6_GPS_SAT_COUNT_MASK : Z;
  UM6_TEMPERATURE : Z
}.

(** Wrap-around of [uint32_t] and [uint8_t]. *)
Definition to_uint32 (z : Z) : Z := z mod 2 ^ 32.
Definition to_uint8 (z : Z) : Z := z mod 2 ^ 8.

(** ** baudValueToBitSetting *)

Definition baudValueToBitSetting (baud_rate : Z) : outcome Z :=
  let UM6_BAUD_9600 := 0 in
  let UM6_BAUD_14400 := 1 in
  let UM6_BAUD_19200 := 2 in
  let UM6_BAUD_38400 := 3 in
  let UM6_BAUD_57600 := 4 in
  let UM6_BAUD_115200 := 5 in
  match baud_rate with
  | 9600 => Ok UM6_BAUD_9600
  | 14400 => Ok UM6_BAUD_14400
  | 19200 => Ok UM6_BAUD_19200
  | 38400 => Ok UM6_BAUD_38400
  | 57600 => Ok UM6_BAUD_57600
  | 115200 => Ok UM6_BAUD_115200
  | _ => Throw (runtime_error "Invalid Baud Rate")
  end.

Definition supported_bauds : list Z :=
  [9600; 14400; 19200; 38400; 57600; 115200].

(** ** Configuration sequence and reset service *)

Section Driver.

(** Declared field counts of the registers (um6/registers.h is not under
    src/). *)
Variable reg_length : RegId -> Z.
Variable fw : Firmware.
Variable ps : ParamServer.

(** [um6::Registers r;] followed by [r.<name>]: a register nothing has
    been stored to yet. *)
Definition fresh (id : RegId) : Accessor := mkAccessor id (reg_length id) [].

(** configureVector3, main.cpp lines 61-86. *)
Definition configureVector3 (reg : Accessor) (param_name : string) : M unit :=
  if negb (length reg =? 3)
  then throw (logic_error
                "configureVector3 may only be used with 3-field registers!")
  else if has ps param_name
  then
    let x := get_double ps (param_name ++ "/x")%string in
    let y := get_double ps (param_name ++ "/y")%string in
    let z := get_double ps (param_name ++ "/z")%string in
    let reg := set_scaled reg 0 x in
    let reg := set_scaled reg 1 y in
    let reg := set_scaled reg 2 z in
    ack <- sendWaitAck reg ;;
    if ack
    then throw (runtime_error "Unable to configure vector.")
    else ret tt
  else ret tt.

(** sendCommand, main.cpp lines 92-100. *)
Definition sendCommand (reg : Accessor) : M unit :=
  ack <- sendWaitAck reg ;;
  if negb ack
  then throw (runtime_error "Command to device failed.")
  else ret tt.

(** The always-on flags of the communication register. *)
Definition comm_flags : Z :=
  Z.lor (Z.lor (Z.lor (Z.lor (Z.lor (Z.lor (Z.lor
    (UM6_BROADCAST_ENABLED fw)
    (UM6_GYROS_PROC_ENABLED fw)) (UM6_ACCELS_PROC_ENABLED fw))
    (UM6_MAG_PROC_ENABLED fw)) (UM6_QUAT_ENABLED fw))
    (UM6_EULER_ENABLED fw)) (UM6_COV_ENABLED fw))
    (UM6_TEMPERATURE_ENABLED fw).

Definition gps_flags : Z :=
  Z.lor (Z.lor (Z.lor (Z.lor
    (UM6_GPS_POSITION_ENABLED fw)
    (UM6_GPS_REL_POSITION_ENABLED fw))
    (UM6_GPS_COURSE_SPEED_ENABLED fw))
    (UM6_GPS_SAT_SUMMARY_ENABLED fw))
    (UM6_GPS_SAT_DATA_ENABLED fw).

(** The value of [comm_reg] at line 160, given the two baud codes. *)
Definition comm_reg_value (sensor_code gps_code : Z) (gps_enable : bool) : Z :=
  let comm_reg :=
    to_uint32
      (Z.lor (Z.lor comm_flags
                (Z.shiftl sensor_code (UM6_BAUD_START_BIT fw)))
         (Z.shiftl gps_code (UM6_GPS_BAUD_START_BIT fw))) in
  if gps_enable then to_uint32 (Z.lor comm_reg gps_flags) else comm_reg.

(** The value of [misc_config_reg] at line 187. *)
Definition misc_config_value (mag_updates accel_updates : bool) : Z :=
  let misc_config_reg := to_uint32 (UM6_QUAT_ESTIMATE_ENABLED fw) in
  let misc_config_reg :=
    if mag_updates
    then to_uint32 (Z.lor misc_config_reg (UM6_MAG_UPDATE_ENABLED fw))
    else misc_config_reg in
  if accel_updates
  then to_uint32 (Z.lor misc_config_reg (UM6_ACCEL_UPDATE_ENABLED fw))
  else misc_config_reg.

(** configureSensor, main.cpp lines 133-212. *)
Definition configureSensor : M unit :=
  let gps_baud := param (get_int ps "~gps_baud") 9600 in
  sensor_code <- lift (baudValueToBitSetting 115200) ;;
  gps_code <- lift (baudValueToBitSetting gps_baud) ;;
  let gps_enable := param (get_bool ps "~gps_enable") false in
  let comm_reg := comm_reg_value sensor_code gps_code gps_enable in
  ack <- sendWaitAck (set (fresh COMMUNICATION) 0 comm_reg) ;;
  (if negb ack
   then throw (runtime_error "Unable to set communication register.")
   else ret tt) ;;;
  let mag_updates := param (get_bool ps "~mag_updates") true in
  let accel_updates := param (get_bool ps "~accel_updates") true in
  let misc_config_reg := misc_config_value mag_updates accel_updates in
  ack <- sendWaitAck (set (fresh MISC_CONFIG) 0 misc_config_reg) ;;
  (if negb ack
   then throw (runtime_error "Unable to set misc config register.")
   else ret tt) ;;;
  let zero_gyros := param (get_bool ps "~zero_gyros") true in
  (if zero_gyros then sendCommand (fresh ZERO_GYROS) else ret tt) ;;;
  configureVector3 (fresh MAG_REF) "~mag_ref" ;;;
  configureVector3 (fresh ACCEL_REF) "~accel_ref" ;;;
  configureVector3 (fresh MAG_BIAS) "~mag_bias" ;;;
  configureVector3 (fresh ACCEL_BIAS) "~accel_bias" ;;;
  configureVector3 (fresh GYRO_BIAS) "~gyro_bias" ;;;
  if gps_enable
  then configureVector3 (fresh GPS_HOME) "~gps_home"
  else ret tt.

(** [um6::Reset::Request]. *)
Record ResetRequest : Type := mkResetRequest {
  zero_gyros : bool;
  reset_ekf : bool;
  set_mag_ref : bool;
  set_accel_ref : bool
}.

(** handleResetService, main.cpp lines 215-224. *)
Definition handleResetService (req : ResetRequest) : M bool :=
  (if zero_gyros req then sendCommand (fresh ZERO_GYROS) else ret tt) ;;;
  (if reset_ekf req then sendCommand (fresh RESET_EKF) else ret tt) ;;;
  (if set_mag_ref req then sendCommand (fresh SET_MAG_REF) else ret tt) ;;;
  (if set_accel_ref req then sendCommand (fresh SET_ACCEL_REF) else ret tt) ;;;
  ret true.

End Driver.

(** ** Telemetry messages *)

Record Header : Type := mkHeader {
  stamp : Z;
  frame_id : string
}.

Record Vector3 : Type := mkVector3 { vx : double; vy : double; vz : double }.

Record Quaternion : Type := mkQuaternion {
  qx : double; qy : double; qz : double; qw : double
}.

(** The fields of sensor_msgs::Imu that publishMsgs assigns; the other
    covariance arrays keep their default. *)
Record Imu : Type := mkImu {
  imu_header : Header;
  orientation : Quaternion;
  orientation_covariance : list double;
  angular_velocity : Vector3;
  linear_acceleration : Vector3
}.

Record Odometry : Type := mkOdometry {
  odom_header : Header;
  child_frame_id : string;
  pose_position : Vector3;
  pose_orientation : Quaternion;
  pose_covariance : list double;
  twist_linear : Vector3;
  twist_angular : Vector3;
  twist_covariance : list double
}.

Inductive Msg : Type :=
| ImuMsg (m : Imu)
| Vector3Stamped (h : Header) (v : Vector3)
| Float32 (data : double)
| UInt8 (data : Z)
| OdometryMsg (m : Odometry).

(** [um6::Registers& r] on the incoming side: the snapshot is read through
    [Accessor::get] and [Accessor::get_scaled] (um6/registers.h is not
    under src/).  [get] is the raw field as an integer, [get_f64] the raw
    field converted to [double] by the assignment it appears in. *)
Record Snapshot : Type := mkSnapshot {
  get : RegId -> Z -> Z;
  get_f64 : RegId -> Z -> double;
  get_scaled : RegId -> Z -> double
}.

(** The message bus as publishMsgs sees it: the subscriber count of a
    topic and whether a publisher advertised on it is valid. *)
Record Bus : Type := mkBus {
  getNumSubscribers : string -> Z;
  publisher_valid : string -> bool
}.

(** [a[i] = v] on a fixed-size array. *)
Fixpoint assign (a : list double) (i : nat) (v : double) : list double :=
  match a, i with
  | [], _ => []
  | _ :: t, O => v :: t
  | h :: t, S i' => h :: assign t i' v
  end.

Section Telemetry.

Variable fw : Firmware.
Variable ps : ParamServer.
Variable bus : Bus.
(** [cos] and [sin] of math.h. *)
Variables (cos sin : double -> double).

Definition bitfield (reg start mask : Z) : Z :=
  Z.land (Z.shiftr reg start) mask.

(** Lines 240-270: the message built for imu/data. *)
Definition imu_msg (r : Snapshot) (header : Header) : Imu :=
  mkImu header
    (mkQuaternion (get_scaled r QUAT 2)
                  (get_scaled r QUAT 1)
                  (Double.neg (get_scaled r QUAT 3))
                  (get_scaled r QUAT 0))
    [ get_scaled r COVARIANCE 5; get_scaled r COVARIANCE 6;
      get_scaled r COVARIANCE 7; get_scaled r COVARIANCE 9;
      get_scaled r COVARIANCE 10; get_scaled r COVARIANCE 11;
      get_scaled r COVARIANCE 13; get_scaled r COVARIANCE 14;
      get_scaled r COVARIANCE 15 ]
    (mkVector3 (get_scaled r GYRO 1) (get_scaled r GYRO 0)
               (Double.neg (get_scaled r GYRO 2)))
    (mkVector3 (get_scaled r ACCEL 1) (get_scaled r ACCEL 0)
               (Double.neg (get_scaled r ACCEL 2))).

(** Lines 276-280 and 286-290. *)
Definition mag_msg (r : Snapshot) (header : Header) : Msg :=
  Vector3Stamped header
    (mkVector3 (get_scaled r MAG 1) (get_scaled r MAG 0)
               (Double.neg (get_scaled r MAG 2))).

Definition rpy_msg (r : Snapshot) (header : Header) : Msg :=
  Vector3Stamped header
    (mkVector3 (get_scaled r EULER 1) (get_scaled r EULER 0)
               (Double.neg (get_scaled r EULER 2))).

Definition hdop_of (r : Snapshot) : double :=
  Double.of_Z (bitfield (get r GPS_STATUS 0)
                 (UM6_GPS_HDOP_START_BIT fw) (UM6_GPS_HDOP_MASK fw)).

Definition vdop_of (r : Snapshot) : double :=
  Double.of_Z (bitfield (get r GPS_STATUS 0)
                 (UM6_GPS_VDOP_START_BIT fw) (UM6_GPS_VDOP_MASK fw)).

(** Lines 340-346: the record assembled for imu/gps_dop. *)
Definition gps_dop_msg (r : Snapshot) (header : Header) : Msg :=
  let hdop := hdop_of r in
  let vdop := vdop_of r in
  Vector3Stamped header (mkVector3 hdop hdop vdop).

(** Lines 364-407: the odometry record. *)
Definition gps_odom_msg (r : Snapshot) (header : Header) : Odometry :=
  let zeros := repeat (Double.of_Z 0) 36 in
  let hdop := hdop_of r in
  let vdop := vdop_of r in
  let pdop := Double.sqrt (Double.add (Double.mul hdop hdop)
                                      (Double.mul vdop vdop)) in
  let big := Double.of_Z 999999 in
  let pose_cov :=
    assign (assign (assign (assign (assign (assign zeros
      0 pdop) 7 pdop) 14 pdop) 21 big) 28 big) 35 big in
  let twist_cov :=
    assign (assign (assign (assign (assign (assign zeros
      0 big) 7 big) 14 big) 21 big) 28 big) 35 big in
  let course := Double.mul (get_f64 r GPS_COURSE_SPEED 0)
                           Double.lit_0_0314159265 in
  let speed := Double.div (get_f64 r GPS_COURSE_SPEED 1)
                          (Double.of_Z 100) in
  mkOdometry header "base"
    (mkVector3 (get_f64 r GPS_ABS 0) (get_f64 r GPS_ABS 1)
               (get_f64 r GPS_ABS 2))
    (mkQuaternion (Double.of_Z 0) (Double.of_Z 0) (Double.of_Z 0)
                  (Double.of_Z 1))
    pose_cov
    (mkVector3 (Double.mul speed (cos course))
               (Double.mul speed (sin course))
               (Double.of_Z 0))
    (mkVector3 (Double.of_Z 0) (Double.of_Z 0) (Double.of_Z 0))
    twist_cov.

(** [if (pub.getNumSubscribers() > 0) { ...; pub.publish(msg); }] *)
Definition when_subscribed (topic : string) (msg : Msg)
  : list (string * Msg) :=
  if 0 <? getNumSubscribers bus topic then [(topic, msg)] else [].

(** publishMsgs, main.cpp lines 230-412: the messages handed to the bus
    by one call, in order, each with the topic of its publisher.  The
    publishers are function-local statics, advertised once; what a call
    depends on is the subscriber count and validity the bus reports for
    them.  The block of lines 338-347 assembles [gps_dop_msg] and leaves
    the scope without a call of [gps_dop_pub.publish]. *)
Definition publishMsgs (r : Snapshot) (header : Header)
  : list (string * Msg) :=
  when_subscribed "imu/data" (ImuMsg (imu_msg r header)) ++
  when_subscribed "imu/mag" (mag_msg r header) ++
  when_subscribed "imu/rpy" (rpy_msg r header) ++
  when_subscribed "imu/temperature"
    (Float32 (Double.to_float32 (get_scaled r TEMPERATURE 0))) ++
  (if param (get_bool ps "~gps_enable") false
   then
     when_subscribed "imu/gps_status"
       (UInt8 (to_uint8 (bitfield (get r GPS_STATUS 0)
                           (UM6_GPS_MODE_START_BIT fw)
                           (UM6_GPS_MODE_MASK fw)))) ++
     when_subscribed "imu/gps_abs"
       (Vector3Stamped header
          (mkVector3 (get_f64 r GPS_ABS 0) (get_f64 r GPS_ABS 1)
                     (get_f64 r GPS_ABS 2))) ++
     when_subscribed "imu/gps_rel"
       (Vector3Stamped header
          (mkVector3 (get_f64 r GPS_REL 0) (get_f64 r GPS_REL 1)
                     (get_f64 r GPS_REL 2))) ++
     (if 0 <? getNumSubscribers bus "imu/gps_dop"
      then let _ := gps_dop_msg r header in []
      else []) ++
     when_subscribed "imu/gps_num_sat"
       (UInt8 (to_uint8 (bitfield (get r GPS_STATUS 0)
                           (UM6_GPS_SAT_COUNT_START_BIT fw)
                           (UM6_GPS_SAT_COUNT_MASK fw)))) ++
     (if has ps "~gps_odom"
      then
        let gps_odom_topic := param (get_string ps "~gps_odom") "" in
        if publisher_valid bus gps_odom_topic
        then [(gps_odom_topic, OdometryMsg (gps_odom_msg r header))]
        else []
      else [])
   else []).

End Telemetry.

(** ** The connection loop of main

    The loop has no state variable of its own; [Session] names the control
    points of main.cpp lines 439-487 after section 3 of the specification:
    [Disconnected] is the head of the outer loop with the port closed,
    [Connecting] the call of [ser.open()] inside [open_pass],
    [Configuring] the entry of the [try] block, [Streaming] the inner loop
    of lines 461-470, and [Faulted] the [catch] handler of lines 472-478. *)

Inductive Session : Type :=
| Disconnected | Connecting | Configuring | Streaming | Faulted.

Record Serial : Type := mkSerial {
  port : string;
  baudrate : Z;
  isOpen : bool
}.

(** What a caller of the reset service receives. *)
Inductive Reply : Type :=
| Replied (ok : bool)
| Failed (e : exn).

(** [ros::spinOnce] runs the pending service callbacks.  What the bus does
    with an exception that leaves a callback is the bus's own business:
    roscpp catches it around the callback and answers the caller with a
    failure ([Contained]); a bus that let it through would hand it to the
    caller of [spinOnce] ([Propagated]). *)
Inductive CallbackGuard : Type := Contained | Propagated.

Record Node : Type := mkNode {
  ser : Serial;
  first_failure : bool;
  session : Session;
  sensor : Comms;
  registers : Snapshot;
  outbox : list (string * Msg);
  replies : list Reply;
  errors : list exn;
  warnings : list string
}.

Section Main.

Variable reg_length : RegId -> Z.
Variable fw : Firmware.
Variable ps : ParamServer.
Variable bus : Bus.
Variables (cos sin : double -> double).
Variable guard : CallbackGuard.

Definition TRIGGER_PACKET : Z := to_uint8 (UM6_TEMPERATURE fw).

(** Lines 423-436, before the loop. *)
Definition main_init (blank : Snapshot) : Node :=
  mkNode
    (mkSerial (param (get_string ps "~port") "/dev/ttyUSB0")
              (param (get_int ps "~baud") 115200)
              false)
    true Disconnected (connect (fun _ => false)) blank [] [] [] [].

(** The [catch] handler, lines 472-478. *)
Definition on_exception (e : exn) (n : Node) : Node :=
  mkNode
    (mkSerial (port (ser n)) (baudrate (ser n))
              (if isOpen (ser n) then false else isOpen (ser n)))
    (first_failure n) Faulted (sensor n) (registers n) (outbox n)
    (replies n) (errors n ++ [e]) (warnings n).

(** Lines 441-452 and 480-486: one attempt to open the port; [opened]
    tells whether [ser.open()] succeeded. *)
Definition open_pass (opened : bool) (n : Node) : Node :=
  if opened
  then
    mkNode (mkSerial (port (ser n)) (baudrate (ser n)) true)
      true Configuring (sensor n) (registers n) (outbox n)
      (replies n) (errors n) (warnings n)
  else
    mkNode (ser n) false Disconnected (sensor n) (registers n) (outbox n)
      (replies n) (errors n)
      (if first_failure n
       then warnings n ++
            [("Could not connect to serial device " ++ port (ser n) ++
              ". Trying again every 1 second.")%string]
       else warnings n).

(** Lines 455-459: a new transport on the open port, configured; [a]
    is the device's acknowledgment behaviour on this connection. *)
Definition configure_pass (a : nat -> bool) (blank : Snapshot) (n : Node)
  : Node :=
  match configureSensor reg_length fw ps (connect a) with
  | (Ok _, s) =>
      mkNode (ser n) (first_failure n) Streaming s blank (outbox n)
        (replies n) (errors n) (warnings n)
  | (Throw e, s) =>
      on_exception e
        (mkNode (ser n) (first_failure n) Configuring s (registers n)
           (outbox n) (replies n) (errors n) (warnings n))
  end.

(** The service callbacks run by one [ros::spinOnce()], oldest request
    first, each through handleResetService on the shared transport. *)
Fixpoint spinOnce (pending : list ResetRequest) (s : Comms)
  (answered : list Reply) : outcome unit * Comms * list Reply :=
  match pending with
  | [] => (Ok tt, s, answered)
  | req :: rest =>
      match handleResetService reg_length req s with
      | (Ok b, s') => spinOnce rest s' (answered ++ [Replied b])
      | (Throw e, s') =>
          match guard with
          | Contained => spinOnce rest s' (answered ++ [Failed e])
          | Propagated => (Throw e, s', answered)
          end
      end
  end.

(** Lines 461-470 under the [try] of line 453: one pass of the inner
    loop.  [inbound] is what [sensor.receive(&registers)] does: it throws,
    or returns an identifier and leaves the snapshot updated.  [now] is
    [ros::Time::now()], [pending] the reset requests queued on the bus. *)
Definition stream_pass (inbound : outcome (Z * Snapshot)) (now : Z)
  (pending : list ResetRequest) (n : Node) : Node :=
  match inbound with
  | Throw e => on_exception e n
  | Ok (id, regs) =>
      if id =? TRIGGER_PACKET
      then
        let header :=
          mkHeader now (param (get_string ps "~frame_id") "imu_link") in
        let out := outbox n ++ publishMsgs fw ps bus cos sin regs header in
        match spinOnce pending (sensor n) (replies n) with
        | (Ok _, s, rs) =>
            mkNode (ser n) (first_failure n) Streaming s regs out rs
              (errors n) (warnings n)
        | (Throw e, s, rs) =>
            on_exception e
              (mkNode (ser n) (first_failure n) Streaming s regs out rs
                 (errors n) (warnings n))
        end
      else
        mkNode (ser n) (first_failure n) Streaming (sensor n) regs
          (outbox n) (replies n) (errors n) (warnings n)
  end.

End Main.

(** ** Concrete collaborators

    Instances of the interfaces above, on which the sequence and the
    transforms can be run. *)

(** The register map of the UM6 data sheet: communication register flags
    in bits 30-15, GPS baud code in bits 13-11, sensor baud code in bits
    10-8; miscellaneous-configuration flags in bits 31-28; GPS status with
    mode in bits 31-30, satellite count in 29-26, HDOP in 25-16 and VDOP
    in 15-6; the temperature register at address 118. *)
Definition um6_firmware : Firmware :=
  mkFirmware
    (2 ^ 30) (2 ^ 26) (2 ^ 25) (2 ^ 24) (2 ^ 23) (2 ^ 22) (2 ^ 21) (2 ^ 20)
    (2 ^ 19) (2 ^ 18) (2 ^ 17) (2 ^ 16) (2 ^ 15)
    8 11
    (2 ^ 28) (2 ^ 31) (2 ^ 30)
    30 3 16 1023 6 1023 26 15
    118.

(** Modelled from the spec: um6/registers.h is not under src/.  Section 3
    has every vector write go to a 3-element register; the two
    configuration registers hold one field, a command register none, the
    quaternion four and the covariance sixteen. *)
Definition um6_reg_length (id : RegId) : Z :=
  match id with
  | COMMUNICATION | MISC_CONFIG => 1
  | ZERO_GYROS | RESET_EKF | SET_MAG_REF | SET_ACCEL_REF => 0
  | MAG_REF | ACCEL_REF | MAG_BIAS | ACCEL_BIAS | GYRO_BIAS | GPS_HOME => 3
  | QUAT => 4
  | COVARIANCE => 16
  | GYRO | ACCEL | MAG | EULER => 3
  | TEMPERATURE | GPS_STATUS => 1
  | GPS_ABS | GPS_REL => 3
  | GPS_COURSE_SPEED => 2
  end.

(** The values a parameter leaf can hold. *)
Inductive ParamValue : Type :=
| PInt (v : Z)
| PBool (v : bool)
| PDouble (v : double)
| PString (v : string).

Definition leaf (leaves : list (string * ParamValue)) (name : string)
  : option ParamValue :=
  match find (fun kv => String.eqb (fst kv) name) leaves with
  | Some kv => Some (snd kv)
  | None => None
  end.

(** A parameter server holding the given leaves.  A name is present when
    it is a leaf or the namespace of one. *)
Definition server_of (leaves : list (string * ParamValue)) : ParamServer :=
  mkParamServer
    (fun name =>
       existsb (fun kv => String.eqb (fst kv) name
                          || String.prefix (name ++ "/")%string (fst kv))
               leaves)
    (fun name => match leaf leaves name with Some (PInt v) => Some v | _ => None end)
    (fun name => match leaf leaves name with Some (PBool v) => Some v | _ => None end)
    (fun name => match leaf leaves name with Some (PDouble v) => Some v | _ => None end)
    (fun name => match leaf leaves name with Some (PString v) => Some v | _ => None end).

Definition vector_param (name : string) (x y z : Z)
  : list (string * ParamValue) :=
  [ ((name ++ "/x")%string, PDouble (Double.of_Z x));
    ((name ++ "/y")%string, PDouble (Double.of_Z y));
    ((name ++ "/z")%string, PDouble (Double.of_Z z)) ].

(** No parameter set at all. *)
Definition no_params : ParamServer := server_of [].

(** Only the magnetic reference vector set. *)
Definition mag_ref_params : ParamServer :=
  server_of (vector_param "~mag_ref" 1 2 3).

(** GPS enabled, the five reference and bias vectors and GPS home set. *)
Definition full_params : ParamServer :=
  server_of
    ([("~gps_enable", PBool true)] ++
     vector_param "~mag_ref" 1 2 3 ++
     vector_param "~accel_ref" 0 0 1 ++
     vector_param "~mag_bias" 4 5 6 ++
     vector_param "~accel_bias" 7 8 9 ++
     vector_param "~gyro_bias" 1 1 1 ++
     vector_param "~gps_home" 10 20 30).

(** The port opened at 9600 baud. *)
Definition baud_9600_params : ParamServer :=
  server_of [("~baud", PInt 9600)].

(** A device that acknowledges everything, and one that acknowledges
    everything but its [k]-th operation (counted from 0). *)
Definition always_ack : nat -> bool := fun _ => true.
Definition ack_all_but (k : nat) : nat -> bool := fun i => negb (Nat.eqb i k).

(** The three components stored by a vector write. *)
Definition vector_write (rl : RegId -> Z) (id : RegId) (x y z : Z) : Accessor :=
  mkAccessor id (rl id)
    [ (0, Scaled (Double.of_Z x)); (1, Scaled (Double.of_Z y));
      (2, Scaled (Double.of_Z z)) ].

(** A snapshot given by its scaled readings and one GPS status word. *)
Definition snapshot_of (scaled : RegId -> Z -> Z) (gps_status : Z) : Snapshot :=
  mkSnapshot
    (fun id _ => match id with GPS_STATUS => gps_status | _ => 0 end)
    (fun _ _ => Double.of_Z 0)
    (fun id i => Double.of_Z (scaled id i)).

(** A bus on which every topic has one subscriber. *)
Definition busy_bus : Bus := mkBus (fun _ => 1) (fun _ => true).

Definition header0 : Header := mkHeader 0 "imu_link".

(** ** Definitions used in the statements *)

(** The transport after one more register was handed to it. *)
Definition pushed (s : Comms) (reg : Accessor) : Comms :=
  mkComms (acks s) (sent s ++ [reg]).

(** The acknowledgment the next operation will get. *)
Definition next_ack (s : Comms) : bool := acks s (List.length (sent s)).

(** A GPS baud rate outside the table. *)
Definition bad_gps_baud_params : ParamServer :=
  server_of [("~gps_baud", PInt 12345)].

(** The commands a request flags, in the order of lines 219-222. *)
Definition flagged (rl : RegId -> Z) (req : ResetRequest) : list Accessor :=
  (if zero_gyros req then [fresh rl ZERO_GYROS] else []) ++
  (if reset_ekf req then [fresh rl RESET_EKF] else []) ++
  (if set_mag_ref req then [fresh rl SET_MAG_REF] else []) ++
  (if set_accel_ref req then [fresh rl SET_ACCEL_REF] else []).

Fixpoint run_commands (cmds : list Accessor) : M unit :=
  match cmds with
  | [] => ret tt
  | c :: rest => sendCommand c ;;; run_commands rest
  end.

(** The register handed to the transport by a vector write. *)
Definition three_scaled (ps : ParamServer) (reg : Accessor) (name : string)
  : Accessor :=
  set_scaled
    (set_scaled
       (set_scaled reg 0 (get_double ps (name ++ "/x")%string))
       1 (get_double ps (name ++ "/y")%string))
    2 (get_double ps (name ++ "/z")%string).

(** A device that acknowledges every operation. *)
Definition acknowledging (s : Comms) : Prop := forall k, acks s k = true.

(** The five vector steps of lines 201-206 with no group present. *)
Definition no_vector_params (ps : ParamServer) : Prop :=
  has ps "~mag_ref" = false /\ has ps "~accel_ref" = false /\
  has ps "~mag_bias" = false /\ has ps "~accel_bias" = false /\
  has ps "~gyro_bias" = false.

Definition vector_registers_ok (rl : RegId -> Z) : Prop :=
  rl MAG_REF = 3 /\ rl ACCEL_REF = 3 /\ rl MAG_BIAS = 3 /\
  rl ACCEL_BIAS = 3 /\ rl GYRO_BIAS = 3 /\ rl GPS_HOME = 3.

Definition count_commands (ops : list Accessor) : nat :=
  List.length (filter (fun a => is_command (index a)) ops).

Definition count_writes (ops : list Accessor) : nat :=
  List.length (filter (fun a => negb (is_command (index a))) ops).

(** The claim of two register writes and no command, on a list of
    operations. *)
Definition two_writes_no_command (ops : list Accessor) : Prop :=
  count_writes ops = 2%nat /\ count_commands ops = 0%nat.

(** The three bits at the sensor-baud position of a communication
    register value. *)
Definition sensor_baud_field (fw : Firmware) (comm_reg : Z) : Z :=
  bitfield comm_reg (UM6_BAUD_START_BIT fw) 7.

(** A register map whose sensor-baud field lies inside the 32-bit register
    and shares no bit with the flags or with the GPS-baud field. *)
Definition baud_field_clear (fw : Firmware) : bool :=
  (0 <=? UM6_BAUD_START_BIT fw) && (UM6_BAUD_START_BIT fw + 3 <=? 32) &&
  (0 <=? UM6_GPS_BAUD_START_BIT fw) &&
  (Z.land (Z.lor (comm_flags fw) (gps_flags fw))
          (Z.shiftl 7 (UM6_BAUD_START_BIT fw)) =? 0) &&
  (Z.land (Z.shiftl 7 (UM6_GPS_BAUD_START_BIT fw))
          (Z.shiftl 7 (UM6_BAUD_START_BIT fw)) =? 0).

(** A computation only ever appends to the list of operations. *)
Definition grows {A} (c : M A) : Prop :=
  forall s,
    acks (snd (c s)) = acks s /\ exists r, sent (snd (c s)) = sent s ++ r.

(** An empty snapshot. *)
Definition blank_snapshot : Snapshot := snapshot_of (fun _ _ => 0) 0.

(** The claim that the sensor-baud field of the communication register
    carries the code of the baud rate the port is opened with. *)
Definition comm_register_carries_port_baud
  (rl : RegId -> Z) (fw : Firmware) (ps : ParamServer) : Prop :=
  forall (a : nat -> bool) (code : Z),
    baudValueToBitSetting (baudrate (ser (main_init ps blank_snapshot)))
    = Ok code ->
    exists v rest,
      sent (snd (configureSensor rl fw ps (connect a)))
      = set (fresh rl COMMUNICATION) 0 v :: rest /\
      sensor_baud_field fw v = code.

(** The remap of section 4.3 for 3-vectors, in the words of the
    specification: x_out = raw[1], y_out = raw[0], z_out = -raw[2]. *)
Definition ned_to_enu (raw : Z -> double) : Vector3 :=
  mkVector3 (raw 1) (raw 0) (Double.neg (raw 2)).

(** A snapshot holding the raw identity quaternion and the raw angular
    velocity (1, 2, 3). *)
Definition sample_snapshot : Snapshot :=
  snapshot_of
    (fun id i =>
       match id with
       | QUAT => if i =? 0 then 1 else 0
       | GYRO | ACCEL | MAG | EULER => i + 1
       | _ => 0
       end)
    0.

(** GPS enabled, nothing else set. *)
Definition gps_params : ParamServer := server_of [("~gps_enable", PBool true)].

(** A GPS status word with mode 3, 9 satellites, HDOP 5 and VDOP 7 on the
    data-sheet register map. *)
Definition sample_gps_status : Z :=
  Z.lor (Z.lor (Z.lor (Z.shiftl 3 30) (Z.shiftl 9 26)) (Z.shiftl 5 16))
        (Z.shiftl 7 6).

Definition gps_snapshot : Snapshot := snapshot_of (fun _ _ => 0) sample_gps_status.

(** A node in the streaming loop whose device will not acknowledge the
    next operation. *)
Definition streaming_node : Node :=
  mkNode (mkSerial "/dev/ttyUSB0" 115200 true) true Streaming
    (connect (ack_all_but 0)) blank_snapshot [] [] [] [].

(** The steps configureSensor is set to take under the parameters [ps],
    by the register each one hands to the transport, in the order of
    lines 160-211. *)
Definition vector_step (ps : ParamServer) (name : string) (id : RegId)
  : list RegId :=
  if has ps name then [id] else [].

Definition planned (ps : ParamServer) : list RegId :=
  [COMMUNICATION; MISC_CONFIG] ++
  (if param (get_bool ps "~zero_gyros") true then [ZERO_GYROS] else []) ++
  vector_step ps "~mag_ref" MAG_REF ++
  vector_step ps "~accel_ref" ACCEL_REF ++
  vector_step ps "~mag_bias" MAG_BIAS ++
  vector_step ps "~accel_bias" ACCEL_BIAS ++
  vector_step ps "~gyro_bias" GYRO_BIAS ++
  (if param (get_bool ps "~gps_enable") false
   then vector_step ps "~gps_home" GPS_HOME
   else []).

(** A computation that works through the plan [L]: when it returns it has
    issued exactly the registers of [L], when it throws it has issued a
    prefix of them. *)
Definition runs_plan {A} (L : list RegId) (c : M A) : Prop :=
  forall s,
    exists r,
      sent (snd (c s)) = sent s ++ r /\
      match fst (c s) with
      | Ok _ => map index r = L
      | Throw _ => exists rest, L = map index r ++ rest
      end.

(** The three bits at the GPS-baud position of a communication register
    value. *)
Definition gps_baud_field (fw : Firmware) (comm_reg : Z) : Z :=
  bitfield comm_reg (UM6_GPS_BAUD_START_BIT fw) 7.

(** A register map whose GPS-baud field lies inside the 32-bit register
    and shares no bit with the flags or with the sensor-baud field. *)
Definition gps_baud_field_clear (fw : Firmware) : bool :=
  (0 <=? UM6_GPS_BAUD_START_BIT fw) &&
  (UM6_GPS_BAUD_START_BIT fw + 3 <=? 32) &&
  (0 <=? UM6_BAUD_START_BIT fw) &&
  (Z.land (Z.lor (comm_flags fw) (gps_flags fw))
          (Z.shiftl 7 (UM6_GPS_BAUD_START_BIT fw)) =? 0) &&
  (Z.land (Z.shiftl 7 (UM6_BAUD_START_BIT fw))
          (Z.shiftl 7 (UM6_GPS_BAUD_START_BIT fw)) =? 0).

(** The node states main can be in at the head of one of its loops: the
    state before the outer loop, and what one pass makes of a state the
    pass applies to.  The outer loop opens the port from [Disconnected]
    and, after the sleep of the [catch] handler, from [Faulted]; an opened
    port is configured; a configured connection streams. *)
Inductive reachable (rl : RegId -> Z) (fw : Firmware) (ps : ParamServer)
  (bus : Bus) (cos sin : double -> double) (guard : CallbackGuard)
  (blank : Snapshot) : Node -> Prop :=
| reach_init : reachable rl fw ps bus cos sin guard blank (main_init ps blank)
| reach_open opened n :
    reachable rl fw ps bus cos sin guard blank n ->
    session n = Disconnected \/ session n = Faulted ->
    reachable rl fw ps bus cos sin guard blank (open_pass opened n)
| reach_configure a n :
    reachable rl fw ps bus cos sin guard blank n ->
    session n = Configuring ->
    reachable rl fw ps bus cos sin guard blank
      (configure_pass rl fw ps a blank n)
| reach_stream inbound now pending n :
    reachable rl fw ps bus cos sin guard blank n ->
    session n = Streaming ->
    reachable rl fw ps bus cos sin guard blank
      (stream_pass rl fw ps bus cos sin guard inbound now pending n).

(** A 2-field register, as none of the vector registers should be. *)
Definition short_register : Accessor := mkAccessor MAG_REF 2 [].

(** The magnetic reference group present with its x component missing. *)
Definition partial_vector_params : ParamServer :=
  server_of [ ("~mag_ref/y", PDouble (Double.of_Z 2));
              ("~mag_ref/z", PDouble (Double.of_Z 3)) ].

(** GPS disabled although a GPS home vector is set, zero-gyros off. *)
Definition gps_home_only_params : ParamServer :=
  server_of ([("~zero_gyros", PBool false)] ++ vector_param "~gps_home" 1 2 3).

(** The GPS receiver at 57600 baud. *)
Definition gps_baud_57600_params : ParamServer :=
  server_of [("~gps_baud", PInt 57600)].


(** GPS disabled with an odometry topic set all the same. *)
Definition odom_without_gps_params : ParamServer :=
  server_of [("~gps_odom", PString "gps/odom")].

(** A bus on which no topic has a subscriber. *)
Definition quiet_bus : Bus := mkBus (fun _ => 0) (fun _ => true).

(** A snapshot whose covariance register reads back its own field
    numbers. *)
Definition covariance_snapshot : Snapshot :=
  snapshot_of (fun id i => match id with COVARIANCE => i | _ => 0 end) 0.

(** A device that acknowledges nothing. *)
Definition never_ack : nat -> bool := fun _ => false.

(** Whether some vector step is planned under [ps]. *)
Definition any_vector_planned (ps : ParamServer) : bool :=
  has ps "~mag_ref" || has ps "~accel_ref" || has ps "~mag_bias" ||
  has ps "~accel_bias" || has ps "~gyro_bias" ||
  (param (get_bool ps "~gps_enable") false && has ps "~gps_home").

(** * Properties *)

(** ** The transport monad *)

Lemma sendWaitAck_run reg s :
  sendWaitAck reg s = (Ok (next_ack s), pushed s reg).
Proof. reflexivity. Qed.

Lemma sendCommand_run reg s :
  sendCommand reg s =
  ((if next_ack s then Ok tt
    else Throw (runtime_error "Command to device failed.")),
   pushed s reg).
Proof.
  unfold sendCommand, bind. rewrite sendWaitAck_run.
  destruct (next_ack s); reflexivity.
Qed.

Lemma length_sent_pushed s reg :
  List.length (sent (pushed s reg)) = S (List.length (sent s)).
Proof. simpl. rewrite length_app. simpl. lia. Qed.

(** ** baudValueToBitSetting *)

Lemma baud_unsupported (b : Z) :
  ~ In b supported_bauds ->
  baudValueToBitSetting b = Throw (runtime_error "Invalid Baud Rate").
Proof.
  intros H.
  assert (H9600 : b <> 9600) by (intros ->; apply H; simpl; tauto).
  assert (H14400 : b <> 14400) by (intros ->; apply H; simpl; tauto).
  assert (H19200 : b <> 19200) by (intros ->; apply H; simpl; tauto).
  assert (H38400 : b <> 38400) by (intros ->; apply H; simpl; tauto).
  assert (H57600 : b <> 57600) by (intros ->; apply H; simpl; tauto).
  assert (H115200 : b <> 115200) by (intros ->; apply H; simpl; tauto).
  clear H.
  destruct b as [|p|p]; try reflexivity.
  repeat (destruct p as [p|p|]; try reflexivity; try congruence).
Qed.

Lemma baud_supported (b : Z) :
  In b supported_bauds ->
  exists c, baudValueToBitSetting b = Ok c /\ 0 <= c <= 5.
Proof.
  simpl. intros [<-|[<-|[<-|[<-|[<-|[<-|[]]]]]]];
    eexists; (split; [reflexivity | lia]).
Qed.

Lemma configureSensor_bad_baud rl fw ps s :
  ~ In (param (get_int ps "~gps_baud") 9600) supported_bauds ->
  configureSensor rl fw ps s = (Throw (runtime_error "Invalid Baud Rate"), s).
Proof.
  intros H. unfold configureSensor.
  change (baudValueToBitSetting 115200) with (@Ok Z 5).
  rewrite (baud_unsupported _ H). reflexivity.
Qed.

(** C7: the baud translation maps the six supported values one-to-one
    onto the codes 0..5, and any other value raises the configuration
    error "Invalid Baud Rate"; in configureSensor that error leaves before
    anything was handed to the transport. *)
Theorem baud_translation_bijective_or_rejected :
  (forall b, In b supported_bauds ->
     exists c, baudValueToBitSetting b = Ok c /\ 0 <= c <= 5) /\
  (forall b1 b2 c, In b1 supported_bauds -> In b2 supported_bauds ->
     baudValueToBitSetting b1 = Ok c -> baudValueToBitSetting b2 = Ok c ->
     b1 = b2) /\
  (forall c, 0 <= c <= 5 ->
     exists b, In b supported_bauds /\ baudValueToBitSetting b = Ok c) /\
  (forall b, ~ In b supported_bauds ->
     baudValueToBitSetting b = Throw (runtime_error "Invalid Baud Rate")) /\
  (forall rl fw ps s,
     ~ In (param (get_int ps "~gps_baud") 9600) supported_bauds ->
     configureSensor rl fw ps s
     = (Throw (runtime_error "Invalid Baud Rate"), s) /\
     issued (configureSensor rl fw ps) s = []).
Proof.
  split; [exact baud_supported|].
  split.
  { simpl. intros b1 b2 c H1 H2.
    destruct H1 as [<-|[<-|[<-|[<-|[<-|[<-|[]]]]]]];
      destruct H2 as [<-|[<-|[<-|[<-|[<-|[<-|[]]]]]]];
      simpl; intros E1 E2; congruence. }
  split.
  { intros c Hc.
    assert (Hcases : c = 0 \/ c = 1 \/ c = 2 \/ c = 3 \/ c = 4 \/ c = 5) by lia.
    destruct Hcases as [->|[->|[->|[->|[->| ->]]]]].
    - exists 9600. simpl. tauto.
    - exists 14400. simpl. tauto.
    - exists 19200. simpl. tauto.
    - exists 38400. simpl. tauto.
    - exists 57600. simpl. tauto.
    - exists 115200. simpl. tauto. }
  split; [exact baud_unsupported|].
  intros rl fw ps s H. unfold issued.
  rewrite (configureSensor_bad_baud rl fw ps s H). simpl.
  split; [reflexivity | apply skipn_all].
Qed.

Lemma baud_translation_bijective_or_rejected_witness :
  baudValueToBitSetting 57600 = Ok 4 /\
  baudValueToBitSetting 12345 = Throw (runtime_error "Invalid Baud Rate") /\
  issued (configureSensor um6_reg_length um6_firmware bad_gps_baud_params)
         (connect always_ack) = [].
Proof.
  destruct baud_translation_bijective_or_rejected as (_ & _ & _ & Hbad & Hcfg).
  split; [reflexivity|]. split.
  - apply Hbad. vm_compute. intuition discriminate.
  - apply (Hcfg um6_reg_length um6_firmware bad_gps_baud_params
                (connect always_ack)).
    vm_compute. intuition discriminate.
Defined.

(** ** The reset service *)

Lemma handleResetService_run rl req s :
  handleResetService rl req s = (run_commands (flagged rl req) ;;; ret true) s.
Proof.
  unfold handleResetService, flagged.
  destruct req as [[] [] [] []];
    cbn [zero_gyros reset_ekf set_mag_ref set_accel_ref app run_commands];
    unfold bind, ret;
    repeat (rewrite sendCommand_run; destruct (next_ack _);
            cbv beta iota; try reflexivity);
    reflexivity.
Qed.

(** What run_commands hands to the transport: a prefix of the commands,
    ending at the first one that is not acknowledged. *)
Lemma run_commands_sent cmds : forall s,
  exists done rest,
    cmds = done ++ rest /\
    sent (snd (run_commands cmds s)) = sent s ++ done /\
    (forall i, (S i < List.length done)%nat ->
       acks s (List.length (sent s) + i)%nat = true) /\
    (fst (run_commands cmds s) = Ok tt ->
       rest = [] /\
       forall i, (i < List.length done)%nat ->
         acks s (List.length (sent s) + i)%nat = true) /\
    (fst (run_commands cmds s) <> Ok tt ->
       exists k, List.length done = S k /\
                 acks s (List.length (sent s) + k)%nat = false).
Proof.
  induction cmds as [|c cmds IH]; intros s.
  - exists [], []. simpl. rewrite app_nil_r.
    repeat split; try reflexivity; try (intros; lia); congruence.
  - simpl. unfold bind. rewrite sendCommand_run.
    destruct (next_ack s) eqn:Hack.
    + destruct (IH (pushed s c)) as (done & rest & -> & Hs & Hpre & Hok & Hko).
      exists (c :: done), rest.
      rewrite length_sent_pushed in Hpre, Hok, Hko. simpl acks in *.
      split; [reflexivity|]. split.
      { rewrite Hs. simpl. rewrite <- app_assoc. reflexivity. }
      split.
      { intros [|i] Hi; simpl in Hi.
        - rewrite Nat.add_0_r. exact Hack.
        - rewrite Nat.add_succ_r. apply Hpre. lia. }
      split.
      { intros E. destruct (Hok E) as [-> Hall]. split; [reflexivity|].
        intros [|i] Hi; simpl in Hi.
        - rewrite Nat.add_0_r. exact Hack.
        - rewrite Nat.add_succ_r. apply Hall. lia. }
      { intros E. destruct (Hko E) as (k & Hk & Hf).
        exists (S k). simpl. rewrite Hk. split; [reflexivity|].
        rewrite Nat.add_succ_r. exact Hf. }
    + exists [c], cmds. simpl.
      split; [reflexivity|]. split; [reflexivity|].
      split; [intros i Hi; lia|].
      split; [intros E; discriminate|].
      intros _. exists O. split; [reflexivity|].
      rewrite Nat.add_0_r. exact Hack.
Qed.

Lemma run_commands_outcome cmds : forall s,
  fst (run_commands cmds s) = Ok tt \/
  fst (run_commands cmds s) = Throw (runtime_error "Command to device failed.").
Proof.
  induction cmds as [|c cmds IH]; intros s; [left; reflexivity|].
  simpl. unfold bind. rewrite sendCommand_run.
  destruct (next_ack s); [apply IH | right; reflexivity].
Qed.

Lemma skipn_app_exact {A} (l1 l2 : list A) :
  skipn (List.length l1) (l1 ++ l2) = l2.
Proof. induction l1 as [|a l1 IH]; [reflexivity | exact IH]. Qed.

(** C10: handleResetService hands to the transport a prefix of the flagged
    commands, in their fixed order, and a command whose acknowledgment
    fails is the last one issued: the request ends with the exception
    "Command to device failed." and the later flagged commands are never
    sent. *)
Theorem reset_stops_at_first_failed_command :
  forall (rl : RegId -> Z) (req : ResetRequest) (s : Comms),
  exists done rest,
    flagged rl req = done ++ rest /\
    issued (handleResetService rl req) s = done /\
    (forall i, (i < List.length done)%nat ->
       acks s (List.length (sent s) + i)%nat = false ->
       List.length done = S i /\
       fst (handleResetService rl req s)
       = Throw (runtime_error "Command to device failed.")) /\
    (fst (handleResetService rl req s) = Ok true -> rest = []).
Proof.
  intros rl req s.
  destruct (run_commands_sent (flagged rl req) s)
    as (done & rest & Hsplit & Hsent & Hpre & Hok & Hko).
  assert (Hfst : fst (handleResetService rl req s)
                 = match fst (run_commands (flagged rl req) s) with
                   | Ok _ => Ok true
                   | Throw e => Throw e
                   end).
  { rewrite handleResetService_run. unfold bind.
    destruct (run_commands (flagged rl req) s) as [[[]|e] s']; reflexivity. }
  assert (Hsnd : sent (snd (handleResetService rl req s)) = sent s ++ done).
  { rewrite handleResetService_run. unfold bind. rewrite <- Hsent.
    destruct (run_commands (flagged rl req) s) as [[[]|e] s']; reflexivity. }
  exists done, rest.
  split; [exact Hsplit|]. split.
  { unfold issued. rewrite Hsnd. apply skipn_app_exact. }
  split.
  - intros i Hi Hfail.
    assert (Hlen : List.length done = S i).
    { destruct (Nat.lt_ge_cases (S i) (List.length done)) as [Hlt|Hge];
        [| lia].
      rewrite (Hpre i Hlt) in Hfail. discriminate. }
    split; [exact Hlen|].
    rewrite Hfst.
    destruct (run_commands_outcome (flagged rl req) s) as [E|E].
    + destruct (Hok E) as [_ Hall]. rewrite (Hall i Hi) in Hfail.
      discriminate.
    + rewrite E. reflexivity.
  - intros E. rewrite Hfst in E.
    destruct (run_commands_outcome (flagged rl req) s) as [E'|E'].
    + exact (proj1 (Hok E')).
    + rewrite E' in E. discriminate.
Qed.

Lemma reset_stops_at_first_failed_command_witness :
  issued (handleResetService um6_reg_length (mkResetRequest true true true true))
         (connect (ack_all_but 0))
  = [fresh um6_reg_length ZERO_GYROS].
Proof.
  destruct (reset_stops_at_first_failed_command um6_reg_length
              (mkResetRequest true true true true) (connect (ack_all_but 0)))
    as (done & rest & _ & Hissued & _).
  rewrite Hissued. rewrite <- Hissued. reflexivity.
Defined.

(** ** Vector writes *)

Lemma configureVector3_present ps reg name s :
  length reg = 3 -> has ps name = true ->
  configureVector3 ps reg name s =
  ((if next_ack s then Throw (runtime_error "Unable to configure vector.")
    else Ok tt),
   pushed s (three_scaled ps reg name)).
Proof.
  intros Hlen Hhas. unfold configureVector3.
  rewrite Hlen, Hhas. change (3 =? 3) with true.
  cbv beta iota zeta delta [negb bind].
  rewrite sendWaitAck_run.
  destruct (next_ack s); reflexivity.
Qed.

Lemma configureVector3_absent ps reg name s :
  length reg = 3 -> has ps name = false ->
  configureVector3 ps reg name s = (Ok tt, s).
Proof.
  intros Hlen Hhas. unfold configureVector3.
  rewrite Hlen, Hhas. reflexivity.
Qed.

(** C1 (as the code behaves): a vector step whose parameter group is
    present hands the register with its three scaled components to the
    transport; then it throws "Unable to configure vector." exactly when
    the acknowledgment WAS received, and returns normally when it was
    not. *)
Theorem vector_step_throws_when_acknowledged :
  forall (ps : ParamServer) (reg : Accessor) (name : string) (s : Comms),
    length reg = 3 -> has ps name = true ->
    issued (configureVector3 ps reg name) s = [three_scaled ps reg name] /\
    (next_ack s = true ->
     fst (configureVector3 ps reg name s)
     = Throw (runtime_error "Unable to configure vector.")) /\
    (next_ack s = false ->
     fst (configureVector3 ps reg name s) = Ok tt).
Proof.
  intros ps reg name s Hlen Hhas.
  rewrite (configureVector3_present ps reg name s Hlen Hhas).
  split.
  - unfold issued. rewrite (configureVector3_present ps reg name s Hlen Hhas).
    apply skipn_app_exact.
  - split; intros ->; reflexivity.
Qed.

Lemma vector_step_throws_when_acknowledged_witness :
  issued (configureVector3 mag_ref_params (fresh um6_reg_length MAG_REF)
            "~mag_ref") (connect always_ack)
  = [vector_write um6_reg_length MAG_REF 1 2 3] /\
  fst (configureVector3 mag_ref_params (fresh um6_reg_length MAG_REF)
         "~mag_ref" (connect always_ack))
  = Throw (runtime_error "Unable to configure vector.").
Proof.
  destruct (vector_step_throws_when_acknowledged mag_ref_params
              (fresh um6_reg_length MAG_REF) "~mag_ref" (connect always_ack)
              eq_refl eq_refl) as (Hissued & Hack & _).
  split; [exact Hissued | exact (Hack eq_refl)].
Defined.

(** ** The configuration sequence *)

(** C3 (as the code behaves): with GPS enabled, the five vectors and GPS
    home present and zero-gyros at its default, a device that acknowledges
    everything gets only four operations, the fourth being the magnetic
    reference write whose acknowledgment makes the sequence throw; a
    device that does not acknowledge the magnetic reference write still
    gets the next vector write; and all nine operations are issued only
    when none of the first five vector writes is acknowledged. *)
Theorem full_configuration_inverts_vector_acks :
  let run := configureSensor um6_reg_length um6_firmware full_params in
  (fst (run (connect always_ack))
   = Throw (runtime_error "Unable to configure vector.") /\
   map index (issued run (connect always_ack))
   = [COMMUNICATION; MISC_CONFIG; ZERO_GYROS; MAG_REF]) /\
  (ack_all_but 3 3%nat = false /\
   map index (issued run (connect (ack_all_but 3)))
   = [COMMUNICATION; MISC_CONFIG; ZERO_GYROS; MAG_REF; ACCEL_REF]) /\
  (fst (run (connect (fun k => Nat.leb k 2))) = Ok tt /\
   map index (issued run (connect (fun k => Nat.leb k 2)))
   = [COMMUNICATION; MISC_CONFIG; ZERO_GYROS; MAG_REF; ACCEL_REF; MAG_BIAS;
      ACCEL_BIAS; GYRO_BIAS; GPS_HOME]).
Proof. vm_compute. repeat split. Qed.

Lemma acknowledging_next s : acknowledging s -> next_ack s = true.
Proof. intros H. apply H. Qed.

Lemma acknowledging_pushed s reg :
  acknowledging s -> acknowledging (pushed s reg).
Proof. intros H k. apply H. Qed.

Lemma configureSensor_no_vectors rl fw ps s gps_code :
  vector_registers_ok rl -> no_vector_params ps ->
  param (get_bool ps "~gps_enable") false = false ->
  baudValueToBitSetting (param (get_int ps "~gps_baud") 9600) = Ok gps_code ->
  acknowledging s ->
  configureSensor rl fw ps s =
  (Ok tt,
   let s1 := pushed s (set (fresh rl COMMUNICATION) 0
                         (comm_reg_value fw 5 gps_code false)) in
   let s2 := pushed s1 (set (fresh rl MISC_CONFIG) 0
                          (misc_config_value fw
                             (param (get_bool ps "~mag_updates") true)
                             (param (get_bool ps "~accel_updates") true))) in
   if param (get_bool ps "~zero_gyros") true
   then pushed s2 (fresh rl ZERO_GYROS)
   else s2).
Proof.
  intros (L1 & L2 & L3 & L4 & L5 & L6) (V1 & V2 & V3 & V4 & V5) Hgps Hbaud Hack.
  unfold configureSensor.
  change (baudValueToBitSetting 115200) with (@Ok Z 5).
  rewrite Hbaud, Hgps.
  cbv beta iota zeta delta [lift bind].
  rewrite sendWaitAck_run.
  rewrite (acknowledging_next s Hack). cbv beta iota delta [negb ret].
  set (s1 := pushed s _).
  assert (Hack1 : acknowledging s1) by (apply acknowledging_pushed; exact Hack).
  rewrite sendWaitAck_run.
  rewrite (acknowledging_next s1 Hack1). cbv beta iota.
  set (s2 := pushed s1 _).
  assert (Hack2 : acknowledging s2) by (apply acknowledging_pushed; exact Hack1).
  destruct (param (get_bool ps "~zero_gyros") true).
  - rewrite sendCommand_run. rewrite (acknowledging_next s2 Hack2).
    cbv beta iota.
    rewrite !configureVector3_absent by (assumption || reflexivity).
    reflexivity.
  - rewrite !configureVector3_absent by (assumption || reflexivity).
    reflexivity.
Qed.

(** C4 (counterexample): with no parameter set at all, on the data-sheet
    register map and an acknowledging device, the sequence issues the
    zero-gyros command after the two register writes. *)
Lemma default_configuration_issues_a_command :
  ~ two_writes_no_command
      (issued (configureSensor um6_reg_length um6_firmware no_params)
              (connect always_ack)).
Proof. vm_compute. intros [_ H]. discriminate H. Qed.

(** C4 (amended): with none of the vector groups present, GPS disabled and
    every operation acknowledged, the sequence completes after exactly two
    register writes (communication, then misc-config) followed by one
    zero-gyros command when that parameter is true, which is its default;
    no command is issued only when zero_gyros is false. *)
Theorem default_configuration_operations :
  forall (rl : RegId -> Z) (fw : Firmware) (ps : ParamServer) (s : Comms),
    vector_registers_ok rl -> no_vector_params ps ->
    param (get_bool ps "~gps_enable") false = false ->
    In (param (get_int ps "~gps_baud") 9600) supported_bauds ->
    acknowledging s ->
    let ops := issued (configureSensor rl fw ps) s in
    fst (configureSensor rl fw ps s) = Ok tt /\
    count_writes ops = 2%nat /\
    map index (filter (fun a => negb (is_command (index a))) ops)
    = [COMMUNICATION; MISC_CONFIG] /\
    count_commands ops
    = (if param (get_bool ps "~zero_gyros") true then 1%nat else 0%nat) /\
    (get_bool ps "~zero_gyros" = None ->
     map index ops = [COMMUNICATION; MISC_CONFIG; ZERO_GYROS]).
Proof.
  intros rl fw ps s Hrl Hvec Hgps Hbaud Hack ops.
  destruct (baud_supported _ Hbaud) as (c & Hc & _).
  pose proof (configureSensor_no_vectors rl fw ps s c Hrl Hvec Hgps Hc Hack)
    as Hrun.
  subst ops. unfold issued. rewrite Hrun. cbv zeta.
  assert (Hz : get_bool ps "~zero_gyros" = None ->
               param (get_bool ps "~zero_gyros") true = true)
    by (intros ->; reflexivity).
  destruct (param (get_bool ps "~zero_gyros") true) eqn:Hzero;
    unfold pushed; cbn [sent fst snd]; rewrite <- !app_assoc;
    rewrite skipn_app_exact;
    (repeat split; try reflexivity).
  intros Hnone. specialize (Hz Hnone). discriminate Hz.
Qed.

Lemma default_configuration_operations_witness :
  count_writes (issued (configureSensor um6_reg_length um6_firmware no_params)
                       (connect always_ack)) = 2%nat /\
  count_commands (issued (configureSensor um6_reg_length um6_firmware no_params)
                         (connect always_ack)) = 1%nat.
Proof.
  assert (Hrl : vector_registers_ok um6_reg_length) by (repeat split).
  assert (Hvec : no_vector_params no_params) by (repeat split).
  assert (Hbaud : In (param (get_int no_params "~gps_baud") 9600)
                     supported_bauds) by (simpl; tauto).
  destruct (default_configuration_operations um6_reg_length um6_firmware
              no_params (connect always_ack) Hrl Hvec eq_refl Hbaud
              (fun _ => eq_refl))
    as (_ & Hwrites & _ & Hcommands & _).
  split; [exact Hwrites | exact Hcommands].
Defined.

(** ** The sensor baud field of the communication register *)

Lemma testbit_7 n : 0 <= n -> Z.testbit 7 n = (n <? 3).
Proof.
  intros Hn. change 7 with (Z.ones 3).
  destruct (Z.ltb_spec n 3).
  - apply Z.ones_spec_low. lia.
  - apply Z.ones_spec_high. lia.
Qed.

Lemma testbit_code_high c k : 0 <= c <= 5 -> 3 <= k -> Z.testbit c k = false.
Proof.
  intros Hc Hk. destruct (Z.eq_dec c 0) as [->|Hnz].
  - apply Z.testbit_0_l.
  - apply Z.bits_above_log2; [lia|].
    assert (Z.log2 c <= Z.log2 5) by (apply Z.log2_le_mono; lia).
    change (Z.log2 5) with 2 in *. lia.
Qed.

Lemma testbit_to_uint32 z m : 0 <= m < 32 -> Z.testbit (to_uint32 z) m = Z.testbit z m.
Proof. intros Hm. unfold to_uint32. apply Z.mod_pow2_bits_low. lia. Qed.

Lemma sensor_baud_field_of_comm_reg fw gps_code gps_enable :
  baud_field_clear fw = true -> 0 <= gps_code <= 5 ->
  sensor_baud_field fw (comm_reg_value fw 5 gps_code gps_enable) = 5.
Proof.
  unfold baud_field_clear. rewrite !andb_true_iff.
  intros ((((Hs0 & Hs32) & Ht0) & Hflags) & Hgps) Hcode.
  apply Z.leb_le in Hs0, Hs32, Ht0. apply Z.eqb_eq in Hflags, Hgps.
  set (sb := UM6_BAUD_START_BIT fw) in *.
  set (tb := UM6_GPS_BAUD_START_BIT fw) in *.
  unfold sensor_baud_field, bitfield. fold sb.
  apply Z.bits_inj'. intros n Hn.
  rewrite Z.land_spec, Z.shiftr_spec by lia.
  rewrite testbit_7 by lia.
  destruct (Z.ltb_spec n 3) as [Hlow|Hhigh].
  2:{ rewrite andb_false_r. symmetry. apply testbit_code_high; lia. }
  rewrite andb_true_r.
  (* the bits of the flags and of the GPS code at the field are clear *)
  assert (Hfl : Z.testbit (comm_flags fw) (n + sb) = false /\
                Z.testbit (gps_flags fw) (n + sb) = false).
  { pose proof (f_equal (fun z => Z.testbit z (n + sb)) Hflags) as Hb.
    cbv beta in Hb.
    rewrite Z.land_spec, Z.lor_spec, Z.shiftl_spec, Z.testbit_0_l in Hb by lia.
    replace (n + sb - sb) with n in Hb by lia.
    rewrite testbit_7 in Hb by lia.
    destruct (Z.ltb_spec n 3); [|lia].
    rewrite andb_true_r in Hb. apply orb_false_elim in Hb. exact Hb. }
  destruct Hfl as [HA HG].
  assert (Hg : Z.testbit (Z.shiftl gps_code tb) (n + sb) = false).
  { rewrite Z.shiftl_spec by lia.
    destruct (Z.lt_ge_cases (n + sb - tb) 0) as [Hneg|Hpos];
      [apply Z.testbit_neg_r; exact Hneg|].
    pose proof (f_equal (fun z => Z.testbit z (n + sb)) Hgps) as Hb.
    cbv beta in Hb.
    rewrite Z.land_spec, !Z.shiftl_spec, Z.testbit_0_l in Hb by lia.
    replace (n + sb - sb) with n in Hb by lia.
    rewrite !testbit_7 in Hb by lia.
    destruct (Z.ltb_spec n 3); [|lia].
    rewrite andb_true_r in Hb.
    apply Z.ltb_ge in Hb.
    apply testbit_code_high; lia. }
  assert (H5 : Z.testbit (Z.shiftl 5 sb) (n + sb) = Z.testbit 5 n).
  { rewrite Z.shiftl_spec by lia. f_equal. lia. }
  unfold comm_reg_value. fold sb tb.
  destruct gps_enable;
    rewrite ?testbit_to_uint32, ?Z.lor_spec, ?testbit_to_uint32,
            ?Z.lor_spec by lia;
    rewrite HA, Hg, H5, ?HG, ?orb_false_r; reflexivity.
Qed.

(** ** Operations are only ever appended *)

Lemma grows_ret {A} (a : A) : grows (ret a).
Proof.
  intros s. split; [reflexivity|]. exists []. symmetry. apply app_nil_r.
Qed.

Lemma grows_throw {A} (e : exn) : grows (@throw A e).
Proof.
  intros s. split; [reflexivity|]. exists []. symmetry. apply app_nil_r.
Qed.

Lemma grows_sendWaitAck reg : grows (sendWaitAck reg).
Proof. intros s. split; [reflexivity|]. exists [reg]. reflexivity. Qed.

Lemma grows_bind {A B} (c : M A) (k : A -> M B) :
  grows c -> (forall a, grows (k a)) -> grows (bind c k).
Proof.
  intros Hc Hk s. unfold bind.
  destruct (Hc s) as (Ha1 & r1 & H1).
  destruct (c s) as [[a|e] s1]; cbn [snd] in *.
  - destruct (Hk a s1) as (Ha2 & r2 & H2).
    split; [congruence|]. exists (r1 ++ r2).
    rewrite H2, H1. symmetry. apply app_assoc.
  - split; [exact Ha1|]. exists r1. exact H1.
Qed.

Lemma grows_if {A} (b : bool) (c1 c2 : M A) :
  grows c1 -> grows c2 -> grows (if b then c1 else c2).
Proof. destruct b; auto. Qed.

Create HintDb um6_grows.
#[local] Hint Resolve grows_ret grows_throw grows_sendWaitAck grows_bind
  grows_if : um6_grows.

Lemma grows_sendCommand reg : grows (sendCommand reg).
Proof. unfold sendCommand. auto with um6_grows. Qed.

Lemma grows_configureVector3 ps reg name : grows (configureVector3 ps reg name).
Proof. unfold configureVector3. auto 7 with um6_grows. Qed.

#[local] Hint Resolve grows_sendCommand grows_configureVector3 : um6_grows.

(** On a fresh connection, what is sent first stays first. *)
Lemma first_sent {B} reg (k : bool -> M B) a :
  (forall b, grows (k b)) ->
  exists rest, sent (snd (bind (sendWaitAck reg) k (connect a))) = reg :: rest.
Proof.
  intros Hk. unfold bind. rewrite sendWaitAck_run.
  destruct (Hk (next_ack (connect a)) (pushed (connect a) reg))
    as (_ & r & Hr).
  exists r. rewrite Hr. reflexivity.
Qed.

(** The first operation of the sequence is the write of the communication
    register, whatever the device answers. *)
Lemma configureSensor_first_write rl fw ps a gps_code :
  baudValueToBitSetting (param (get_int ps "~gps_baud") 9600) = Ok gps_code ->
  exists rest,
    sent (snd (configureSensor rl fw ps (connect a)))
    = set (fresh rl COMMUNICATION) 0
        (comm_reg_value fw 5 gps_code (param (get_bool ps "~gps_enable") false))
      :: rest.
Proof.
  intros Hbaud. unfold configureSensor.
  change (baudValueToBitSetting 115200) with (@Ok Z 5).
  rewrite Hbaud.
  change (bind (lift (Ok 5)) ?k (connect a)) with (k 5 (connect a)).
  cbv beta.
  change (bind (lift (Ok gps_code)) ?k (connect a)) with (k gps_code (connect a)).
  cbv beta zeta.
  apply first_sent. intros b.
  auto 20 with um6_grows.
Qed.

(** C5 (counterexample): with the port configured at 9600 baud (code 0),
    the communication register written on the data-sheet register map
    carries code 5 in its sensor-baud field. *)
Lemma port_baud_9600_not_in_comm_register :
  ~ comm_register_carries_port_baud um6_reg_length um6_firmware
      baud_9600_params.
Proof.
  intros H.
  destruct (H always_ack 0 eq_refl) as (v & rest & Hsent & Hfield).
  vm_compute in Hsent. injection Hsent as Hv _. subst v.
  vm_compute in Hfield. discriminate Hfield.
Qed.

(** C5 (amended): whatever baud rate is configured for the port, the
    communication register written first by the configuration sequence
    carries, at the sensor-baud bit position, the 3-bit code of the fixed
    rate 115200, which is 5. *)
Theorem comm_register_carries_fixed_sensor_baud :
  forall (rl : RegId -> Z) (fw : Firmware) (ps : ParamServer)
         (a : nat -> bool),
    baud_field_clear fw = true ->
    In (param (get_int ps "~gps_baud") 9600) supported_bauds ->
    baudValueToBitSetting 115200 = Ok 5 /\
    exists v rest,
      sent (snd (configureSensor rl fw ps (connect a)))
      = set (fresh rl COMMUNICATION) 0 v :: rest /\
      sensor_baud_field fw v = 5.
Proof.
  intros rl fw ps a Hfw Hbaud. split; [reflexivity|].
  destruct (baud_supported _ Hbaud) as (c & Hc & Hrange).
  destruct (configureSensor_first_write rl fw ps a c Hc) as (rest & Hsent).
  eexists; exists rest. split; [exact Hsent|].
  apply sensor_baud_field_of_comm_reg; assumption.
Qed.

Lemma comm_register_carries_fixed_sensor_baud_witness :
  baudrate (ser (main_init baud_9600_params blank_snapshot)) = 9600 /\
  exists v rest,
    sent (snd (configureSensor um6_reg_length um6_firmware baud_9600_params
                 (connect always_ack)))
    = set (fresh um6_reg_length COMMUNICATION) 0 v :: rest /\
    sensor_baud_field um6_firmware v = 5.
Proof.
  split; [reflexivity|].
  assert (Hbaud : In (param (get_int baud_9600_params "~gps_baud") 9600)
                     supported_bauds) by (simpl; tauto).
  exact (proj2 (comm_register_carries_fixed_sensor_baud um6_reg_length
                  um6_firmware baud_9600_params always_ack eq_refl Hbaud)).
Defined.

(** ** Telemetry *)

(** Case analysis on a message found in the output of publishMsgs. *)
Ltac published H :=
  unfold publishMsgs, when_subscribed in H;
  repeat match type of H with
  | In _ (_ ++ _) => apply in_app_or in H; destruct H as [H|H]
  | In _ (if ?c then _ else _) => destruct c
  | In _ [] => destruct H
  | In _ [_] => destruct H as [H|[]]
  | In _ _ => progress (cbv zeta in H)
  end;
  try discriminate H.

Lemma published_imu fw ps bus cos sin r header topic m :
  In (topic, ImuMsg m) (publishMsgs fw ps bus cos sin r header) ->
  topic = "imu/data" /\ m = imu_msg r header.
Proof.
  intros H. published H.
  injection H as <- <-. split; reflexivity.
Qed.

Lemma published_when_subscribed fw ps bus cos sin r header :
  0 < getNumSubscribers bus "imu/data" ->
  In ("imu/data", ImuMsg (imu_msg r header))
     (publishMsgs fw ps bus cos sin r header).
Proof.
  intros H. unfold publishMsgs, when_subscribed.
  apply Z.ltb_lt in H. rewrite H. left. reflexivity.
Qed.

(** C8: every orientation handed to the bus is the raw quaternion remapped
    as x_out = raw[2], y_out = raw[1], z_out = -raw[3], w_out = raw[0], and
    it is handed to the bus whenever imu/data has a subscriber.  For the
    raw identity (1, 0, 0, 0) the output is x = 0, y = 0, w = 1 and z the
    negation of zero, which compares equal to zero. *)
Theorem orientation_remap :
  forall (fw : Firmware) (ps : ParamServer) (bus : Bus)
         (cos sin : double -> double) (r : Snapshot) (header : Header),
    (0 < getNumSubscribers bus "imu/data" ->
     exists m, In ("imu/data", ImuMsg m)
                  (publishMsgs fw ps bus cos sin r header)) /\
    (forall topic m,
       In (topic, ImuMsg m) (publishMsgs fw ps bus cos sin r header) ->
       (qx (orientation m) = get_scaled r QUAT 2 /\
        qy (orientation m) = get_scaled r QUAT 1 /\
        qz (orientation m) = Double.neg (get_scaled r QUAT 3) /\
        qw (orientation m) = get_scaled r QUAT 0) /\
       (get_scaled r QUAT 0 = Double.of_Z 1 ->
        get_scaled r QUAT 1 = Double.of_Z 0 ->
        get_scaled r QUAT 2 = Double.of_Z 0 ->
        get_scaled r QUAT 3 = Double.of_Z 0 ->
        qx (orientation m) = Double.of_Z 0 /\
        qy (orientation m) = Double.of_Z 0 /\
        Double.eqb (qz (orientation m)) (Double.of_Z 0) = true /\
        qw (orientation m) = Double.of_Z 1)).
Proof.
  intros fw ps bus cos sin r header. split.
  - intros Hsub. eexists.
    apply published_when_subscribed. exact Hsub.
  - intros topic m H.
    destruct (published_imu _ _ _ _ _ _ _ _ _ H) as [_ ->].
    split; [repeat split|].
    intros H0 H1 H2 H3. cbn [imu_msg orientation qx qy qz qw].
    rewrite H0, H1, H2, H3. repeat split.
Qed.

Lemma orientation_remap_witness :
  exists m,
    In ("imu/data", ImuMsg m)
       (publishMsgs um6_firmware no_params busy_bus Double.neg Double.neg
          sample_snapshot header0) /\
    qx (orientation m) = Double.of_Z 0 /\
    qy (orientation m) = Double.of_Z 0 /\
    Double.eqb (qz (orientation m)) (Double.of_Z 0) = true /\
    qw (orientation m) = Double.of_Z 1.
Proof.
  destruct (orientation_remap um6_firmware no_params busy_bus Double.neg
              Double.neg sample_snapshot header0) as [Hpub Hmap].
  destruct (Hpub eq_refl) as (m & Hm).
  exists m. split; [exact Hm|].
  exact (proj2 (Hmap _ _ Hm) eq_refl eq_refl eq_refl eq_refl).
Defined.

Lemma published_vector fw ps bus cos sin r header topic h v :
  In (topic, Vector3Stamped h v) (publishMsgs fw ps bus cos sin r header) ->
  (topic = "imu/mag" -> v = ned_to_enu (get_scaled r MAG)) /\
  (topic = "imu/rpy" -> v = ned_to_enu (get_scaled r EULER)).
Proof.
  intros H. published H;
    injection H as <- <- <-; split; intros E;
    try discriminate E; reflexivity.
Qed.

(** C9: angular velocity, linear acceleration, magnetic field and
    roll-pitch-yaw all leave through the same remap x_out = raw[1],
    y_out = raw[0], z_out = -raw[2]; the raw angular velocity (1, 2, 3)
    is published as (2, 1, -3). *)
Theorem vector_remap :
  forall (fw : Firmware) (ps : ParamServer) (bus : Bus)
         (cos sin : double -> double) (r : Snapshot) (header : Header),
    (forall topic m,
       In (topic, ImuMsg m) (publishMsgs fw ps bus cos sin r header) ->
       angular_velocity m = ned_to_enu (get_scaled r GYRO) /\
       linear_acceleration m = ned_to_enu (get_scaled r ACCEL) /\
       (get_scaled r GYRO 0 = Double.of_Z 1 ->
        get_scaled r GYRO 1 = Double.of_Z 2 ->
        get_scaled r GYRO 2 = Double.of_Z 3 ->
        angular_velocity m
        = mkVector3 (Double.of_Z 2) (Double.of_Z 1) (Double.of_Z (-3)))) /\
    (forall h v,
       In ("imu/mag", Vector3Stamped h v)
          (publishMsgs fw ps bus cos sin r header) ->
       v = ned_to_enu (get_scaled r MAG)) /\
    (forall h v,
       In ("imu/rpy", Vector3Stamped h v)
          (publishMsgs fw ps bus cos sin r header) ->
       v = ned_to_enu (get_scaled r EULER)) /\
    (0 < getNumSubscribers bus "imu/data" ->
     0 < getNumSubscribers bus "imu/mag" ->
     0 < getNumSubscribers bus "imu/rpy" ->
     exists m h1 v1 h2 v2,
       In ("imu/data", ImuMsg m) (publishMsgs fw ps bus cos sin r header) /\
       In ("imu/mag", Vector3Stamped h1 v1)
          (publishMsgs fw ps bus cos sin r header) /\
       In ("imu/rpy", Vector3Stamped h2 v2)
          (publishMsgs fw ps bus cos sin r header)).
Proof.
  intros fw ps bus cos sin r header.
  split; [|split; [|split]].
  - intros topic m H.
    destruct (published_imu _ _ _ _ _ _ _ _ _ H) as [_ ->].
    split; [reflexivity|]. split; [reflexivity|].
    intros H0 H1 H2. cbn [imu_msg angular_velocity].
    rewrite H0, H1, H2. reflexivity.
  - intros h v H.
    exact (proj1 (published_vector _ _ _ _ _ _ _ _ _ _ H) eq_refl).
  - intros h v H.
    exact (proj2 (published_vector _ _ _ _ _ _ _ _ _ _ H) eq_refl).
  - intros Hd Hm Hr. apply Z.ltb_lt in Hd, Hm, Hr.
    do 5 eexists. unfold publishMsgs, when_subscribed, mag_msg, rpy_msg.
    rewrite Hd, Hm, Hr.
    split; [left; reflexivity|].
    split; [right; left; reflexivity|].
    right; right; left; reflexivity.
Qed.

Lemma vector_remap_witness :
  exists m,
    In ("imu/data", ImuMsg m)
       (publishMsgs um6_firmware no_params busy_bus Double.neg Double.neg
          sample_snapshot header0) /\
    angular_velocity m
    = mkVector3 (Double.of_Z 2) (Double.of_Z 1) (Double.of_Z (-3)).
Proof.
  destruct (vector_remap um6_firmware no_params busy_bus Double.neg
              Double.neg sample_snapshot header0)
    as (Himu & _ & _ & Hpub).
  destruct (Hpub eq_refl eq_refl eq_refl) as (m & _ & _ & _ & _ & Hm & _).
  exists m. split; [exact Hm|].
  exact (proj2 (proj2 (Himu _ _ Hm)) eq_refl eq_refl eq_refl).
Defined.

Example sample_dop_record :
  gps_dop_msg um6_firmware gps_snapshot header0
  = Vector3Stamped header0
      (mkVector3 (Double.of_Z 5) (Double.of_Z 5) (Double.of_Z 7)).
Proof. reflexivity. Qed.

Example sample_topics :
  map fst (publishMsgs um6_firmware gps_params busy_bus Double.neg Double.neg
             gps_snapshot header0)
  = [ "imu/data"; "imu/mag"; "imu/rpy"; "imu/temperature"; "imu/gps_status";
      "imu/gps_abs"; "imu/gps_rel"; "imu/gps_num_sat" ].
Proof. reflexivity. Qed.

(** C6 (as the code behaves): nothing that publishMsgs hands to the bus on
    imu/gps_dop is the dilution-of-precision record; the only message that
    can appear on that topic is the odometry record, when the odometry
    topic parameter names it.  The record of lines 340-346 is assembled
    and dropped. *)
Theorem dop_record_not_published :
  forall (fw : Firmware) (ps : ParamServer) (bus : Bus)
         (cos sin : double -> double) (r : Snapshot) (header : Header)
         (msg : Msg),
    In ("imu/gps_dop", msg) (publishMsgs fw ps bus cos sin r header) ->
    param (get_string ps "~gps_odom") "" = "imu/gps_dop" /\
    msg = OdometryMsg (gps_odom_msg fw cos sin r header).
Proof.
  intros fw ps bus cos sin r header msg H.
  published H.
  injection H as Htopic <-. split; [exact Htopic | reflexivity].
Qed.

Lemma dop_record_not_published_witness :
  0 < getNumSubscribers busy_bus "imu/gps_dop" /\
  param (get_bool gps_params "~gps_enable") false = true /\
  ~ In ("imu/gps_dop", gps_dop_msg um6_firmware gps_snapshot header0)
       (publishMsgs um6_firmware gps_params busy_bus Double.neg Double.neg
          gps_snapshot header0).
Proof.
  split; [reflexivity|]. split; [reflexivity|].
  intros H.
  destruct (dop_record_not_published _ _ _ _ _ _ _ _ H) as [Hodom _].
  discriminate Hodom.
Defined.

(** ** The reset service inside the streaming loop *)

Lemma grows_handleResetService rl req : grows (handleResetService rl req).
Proof. unfold handleResetService. auto 12 with um6_grows. Qed.

(** Under a containing bus [spinOnce] always returns, every request is
    answered, and the transport is the same connection with more
    operations on it. *)
Lemma spinOnce_contained rl pending : forall s answered,
  exists s' rs,
    spinOnce rl Contained pending s answered = (Ok tt, s', rs) /\
    List.length rs = (List.length answered + List.length pending)%nat /\
    acks s' = acks s /\
    exists r, sent s' = sent s ++ r.
Proof.
  induction pending as [|req rest IH]; intros s answered.
  - exists s, answered. split; [reflexivity|]. split; [simpl; lia|].
    split; [reflexivity|]. exists []. symmetry. apply app_nil_r.
  - cbn [spinOnce].
    destruct (grows_handleResetService rl req s) as (Ha & r1 & Hr1).
    destruct (handleResetService rl req s) as [[b|e] s1]; cbn [snd] in *.
    + destruct (IH s1 (answered ++ [Replied b]))
        as (s' & rs & Hrun & Hlen & Hacks & r2 & Hr2).
      exists s', rs. split; [exact Hrun|].
      split; [rewrite Hlen, length_app; simpl; lia|].
      split; [congruence|].
      exists (r1 ++ r2). rewrite Hr2, Hr1. symmetry. apply app_assoc.
    + destruct (IH s1 (answered ++ [Failed e]))
        as (s' & rs & Hrun & Hlen & Hacks & r2 & Hr2).
      exists s', rs. split; [exact Hrun|].
      split; [rewrite Hlen, length_app; simpl; lia|].
      split; [congruence|].
      exists (r1 ++ r2). rewrite Hr2, Hr1. symmetry. apply app_assoc.
Qed.

(** C2: on a bus that answers the caller when a service callback throws
    (what roscpp does), a reset request whose command is not acknowledged
    is answered with the failure and nothing else happens to the node: one
    pass of the streaming loop leaves the session in Streaming, the port
    as it was (open), the transport on the same connection, and the error
    record of the node untouched. *)
Theorem reset_failure_keeps_streaming :
  forall (rl : RegId -> Z) (fw : Firmware) (ps : ParamServer) (bus : Bus)
         (cos sin : double -> double) (regs : Snapshot) (now : Z)
         (pending : list ResetRequest) (n : Node),
    session n = Streaming -> isOpen (ser n) = true ->
    let n' := stream_pass rl fw ps bus cos sin Contained
                (Ok (TRIGGER_PACKET fw, regs)) now pending n in
    session n' = Streaming /\
    ser n' = ser n /\ isOpen (ser n') = true /\
    errors n' = errors n /\
    acks (sensor n') = acks (sensor n) /\
    (exists r, sent (sensor n') = sent (sensor n) ++ r) /\
    List.length (replies n')
    = (List.length (replies n) + List.length pending)%nat /\
    (forall req e,
       pending = [req] ->
       fst (handleResetService rl req (sensor n)) = Throw e ->
       replies n' = replies n ++ [Failed e]).
Proof.
  intros rl fw ps bus cos sin regs now pending n Hsession Hopen n'.
  subst n'. unfold stream_pass. rewrite Z.eqb_refl.
  destruct (spinOnce_contained rl pending (sensor n) (replies n))
    as (s' & rs & Hrun & Hlen & Hacks & Hsent).
  split; [rewrite Hrun; reflexivity|].
  split; [rewrite Hrun; reflexivity|].
  split; [rewrite Hrun; exact Hopen|].
  split; [rewrite Hrun; reflexivity|].
  split; [rewrite Hrun; exact Hacks|].
  split; [rewrite Hrun; exact Hsent|].
  split; [rewrite Hrun; exact Hlen|].
  intros req e -> Hthrow. cbn [spinOnce].
  destruct (handleResetService rl req (sensor n)) as [[b|e'] s1];
    cbn [fst] in Hthrow; [discriminate Hthrow|].
  injection Hthrow as ->. reflexivity.
Qed.

Lemma reset_failure_keeps_streaming_witness :
  let n' := stream_pass um6_reg_length um6_firmware no_params busy_bus
              Double.neg Double.neg Contained
              (Ok (TRIGGER_PACKET um6_firmware, blank_snapshot)) 0
              [mkResetRequest true true false false] streaming_node in
  session n' = Streaming /\ isOpen (ser n') = true /\
  replies n' = [Failed (runtime_error "Command to device failed.")].
Proof.
  destruct (reset_failure_keeps_streaming um6_reg_length um6_firmware
              no_params busy_bus Double.neg Double.neg blank_snapshot 0
              [mkResetRequest true true false false] streaming_node
              eq_refl eq_refl)
    as (Hsession & _ & Hopen & _ & _ & _ & _ & Hreply).
  split; [exact Hsession|]. split; [exact Hopen|].
  exact (Hreply _ _ eq_refl eq_refl).
Defined.

(** On a bus that let the exception through, the same request would reach
    the [catch] handler of main: the port is closed and the session
    leaves Streaming. *)
Lemma propagated_reset_failure_faults :
  let n' := stream_pass um6_reg_length um6_firmware no_params busy_bus
              Double.neg Double.neg Propagated
              (Ok (TRIGGER_PACKET um6_firmware, blank_snapshot)) 0
              [mkResetRequest true true false false] streaming_node in
  session n' = Faulted /\ isOpen (ser n') = false /\ replies n' = [].
Proof. repeat split. Qed.

(** * Further properties of main.cpp *)

(** ** Vector steps at the edges *)

(** X1: a register that does not declare three fields makes
    configureVector3 throw a logic error before it looks at the parameter
    server; nothing is handed to the transport, whether or not the
    parameter group is there. *)
Theorem vector_step_rejects_other_lengths :
  forall (ps : ParamServer) (reg : Accessor) (name : string) (s : Comms),
    length reg <> 3 ->
    configureVector3 ps reg name s
    = (Throw (logic_error
                "configureVector3 may only be used with 3-field registers!"),
       s).
Proof.
  intros ps reg name s Hlen. unfold configureVector3.
  destruct (Z.eqb_spec (length reg) 3) as [E|_]; [contradiction|].
  reflexivity.
Qed.

Lemma vector_step_rejects_other_lengths_witness :
  issued (configureVector3 mag_ref_params short_register "~mag_ref")
         (connect always_ack) = [] /\
  fst (configureVector3 no_params short_register "~mag_ref"
         (connect always_ack))
  = Throw (logic_error
             "configureVector3 may only be used with 3-field registers!").
Proof.
  assert (Hlen : length short_register <> 3) by (simpl; lia).
  split.
  - unfold issued.
    rewrite (vector_step_rejects_other_lengths mag_ref_params short_register
               "~mag_ref" (connect always_ack) Hlen).
    reflexivity.
  - rewrite (vector_step_rejects_other_lengths no_params short_register
               "~mag_ref" (connect always_ack) Hlen).
    reflexivity.
Defined.

(** X2: a vector step whose parameter group is absent is skipped without
    an error: the transport is left exactly as it was. *)
Theorem vector_step_skips_absent_group :
  forall (ps : ParamServer) (reg : Accessor) (name : string) (s : Comms),
    length reg = 3 -> has ps name = false ->
    configureVector3 ps reg name s = (Ok tt, s) /\
    issued (configureVector3 ps reg name) s = [].
Proof.
  intros ps reg name s Hlen Hhas.
  unfold issued. rewrite (configureVector3_absent ps reg name s Hlen Hhas).
  split; [reflexivity | apply skipn_all].
Qed.

Lemma vector_step_skips_absent_group_witness :
  issued (configureVector3 no_params (fresh um6_reg_length GYRO_BIAS)
            "~gyro_bias") (connect never_ack) = [].
Proof.
  exact (proj2 (vector_step_skips_absent_group no_params
                  (fresh um6_reg_length GYRO_BIAS) "~gyro_bias"
                  (connect never_ack) eq_refl eq_refl)).
Defined.

(** X3: the register a vector step hands to the transport is the one it
    was given, with fields 0, 1 and 2 assigned in that order after
    whatever was stored before; a component the parameter server does not
    hold as a double is sent as the uninitialised content of the local. *)
Theorem vector_step_payload :
  forall (ps : ParamServer) (reg : Accessor) (name : string) (s : Comms),
    length reg = 3 -> has ps name = true ->
    exists out,
      issued (configureVector3 ps reg name) s = [out] /\
      index out = index reg /\ length out = 3 /\
      stores out
      = stores reg ++
        map (fun fc =>
               (fst fc,
                match get_double ps (name ++ snd fc)%string with
                | Some v => Scaled v
                | None => Indeterminate
                end))
            [(0, "/x"); (1, "/y"); (2, "/z")].
Proof.
  intros ps reg name s Hlen Hhas.
  exists (three_scaled ps reg name). split.
  - unfold issued. rewrite (configureVector3_present ps reg name s Hlen Hhas).
    apply skipn_app_exact.
  - split; [reflexivity|]. split; [exact Hlen|].
    unfold three_scaled, set_scaled. cbn [stores map fst snd].
    rewrite <- !app_assoc. reflexivity.
Qed.

Lemma vector_step_payload_witness :
  exists out,
    issued (configureVector3 partial_vector_params
              (fresh um6_reg_length MAG_REF) "~mag_ref") (connect never_ack)
    = [out] /\
    stores out
    = [ (0, Indeterminate); (1, Scaled (Double.of_Z 2));
        (2, Scaled (Double.of_Z 3)) ].
Proof.
  destruct (vector_step_payload partial_vector_params
              (fresh um6_reg_length MAG_REF) "~mag_ref" (connect never_ack)
              eq_refl eq_refl) as (out & Hissued & _ & _ & Hstores).
  exists out. split; [exact Hissued | exact Hstores].
Defined.

(** ** The reset service *)

Lemma handleResetService_split rl req s :
  exists done rest,
    flagged rl req = done ++ rest /\
    sent (snd (handleResetService rl req s)) = sent s ++ done /\
    acks (snd (handleResetService rl req s)) = acks s /\
    (fst (handleResetService rl req s) = Ok true \/
     fst (handleResetService rl req s)
     = Throw (runtime_error "Command to device failed.")) /\
    (acknowledging s -> fst (handleResetService rl req s) = Ok true /\
                        rest = []).
Proof.
  destruct (run_commands_sent (flagged rl req) s)
    as (done & rest & Hsplit & Hsent & _ & Hok & Hko).
  destruct (grows_handleResetService rl req s) as (Hacks & _).
  assert (Hfst : fst (handleResetService rl req s)
                 = match fst (run_commands (flagged rl req) s) with
                   | Ok _ => Ok true
                   | Throw e => Throw e
                   end).
  { rewrite handleResetService_run. unfold bind.
    destruct (run_commands (flagged rl req) s) as [[[]|e] s']; reflexivity. }
  assert (Hsnd : sent (snd (handleResetService rl req s)) = sent s ++ done).
  { rewrite handleResetService_run. unfold bind. rewrite <- Hsent.
    destruct (run_commands (flagged rl req) s) as [[[]|e] s']; reflexivity. }
  exists done, rest.
  split; [exact Hsplit|]. split; [exact Hsnd|]. split; [exact Hacks|].
  rewrite Hfst.
  destruct (run_commands_outcome (flagged rl req) s) as [E|E]; rewrite E.
  - split; [left; reflexivity|]. intros _.
    split; [reflexivity | exact (proj1 (Hok E))].
  - split; [right; reflexivity|]. intros Hack.
    assert (Hne : fst (run_commands (flagged rl req) s) <> Ok tt)
      by (rewrite E; discriminate).
    destruct (Hko Hne) as (k & _ & Hfalse).
    rewrite (Hack _) in Hfalse. discriminate Hfalse.
Qed.

(** X4: the reset service never answers false: it returns true or leaves
    with the exception "Command to device failed."; it leaves the device's
    acknowledgment behaviour alone and only appends to what was sent. *)
Theorem reset_returns_true_or_throws :
  forall (rl : RegId -> Z) (req : ResetRequest) (s : Comms),
    (fst (handleResetService rl req s) = Ok true \/
     fst (handleResetService rl req s)
     = Throw (runtime_error "Command to device failed.")) /\
    acks (snd (handleResetService rl req s)) = acks s /\
    sent (snd (handleResetService rl req s))
    = sent s ++ issued (handleResetService rl req) s.
Proof.
  intros rl req s.
  destruct (handleResetService_split rl req s)
    as (done & rest & _ & Hsent & Hacks & Hout & _).
  split; [exact Hout|]. split; [exact Hacks|].
  unfold issued. rewrite Hsent, skipn_app_exact. reflexivity.
Qed.

(** X5: on a device that acknowledges every operation the reset service
    issues exactly the commands the request flags, in the order zero
    gyros, reset EKF, set magnetometer reference, set accelerometer
    reference, and returns true; a request with no flag set sends
    nothing and returns true as well. *)
Theorem reset_acknowledged_issues_flagged :
  forall (rl : RegId -> Z) (req : ResetRequest) (s : Comms),
    acknowledging s ->
    fst (handleResetService rl req s) = Ok true /\
    issued (handleResetService rl req) s = flagged rl req /\
    map index (issued (handleResetService rl req) s)
    = filter (fun id =>
                match id with
                | ZERO_GYROS => zero_gyros req
                | RESET_EKF => reset_ekf req
                | SET_MAG_REF => set_mag_ref req
                | SET_ACCEL_REF => set_accel_ref req
                | _ => false
                end)
             [ZERO_GYROS; RESET_EKF; SET_MAG_REF; SET_ACCEL_REF].
Proof.
  intros rl req s Hack.
  destruct (handleResetService_split rl req s)
    as (done & rest & Hsplit & Hsent & _ & _ & Hall).
  destruct (Hall Hack) as [Hok ->]. rewrite app_nil_r in Hsplit. subst done.
  assert (Hissued : issued (handleResetService rl req) s = flagged rl req).
  { unfold issued. rewrite Hsent. apply skipn_app_exact. }
  split; [exact Hok|]. split; [exact Hissued|].
  rewrite Hissued. unfold flagged.
  destruct req as [[] [] [] []]; reflexivity.
Qed.

Lemma reset_acknowledged_issues_flagged_witness :
  map index (issued (handleResetService um6_reg_length
                       (mkResetRequest false true false true))
                    (connect always_ack))
  = [RESET_EKF; SET_ACCEL_REF] /\
  issued (handleResetService um6_reg_length
            (mkResetRequest false false false false))
         (connect always_ack) = [].
Proof.
  split.
  - exact (proj2 (proj2 (reset_acknowledged_issues_flagged um6_reg_length
                           (mkResetRequest false true false true)
                           (connect always_ack) (fun _ => eq_refl)))).
  - exact (proj1 (proj2 (reset_acknowledged_issues_flagged um6_reg_length
                           (mkResetRequest false false false false)
                           (connect always_ack) (fun _ => eq_refl)))).
Defined.

(** X6: whatever the device answers, the reset service hands the
    transport at most four registers, each of them a command register
    with nothing stored in it; it never writes a configuration or a
    vector register. *)
Theorem reset_issues_bare_commands_only :
  forall (rl : RegId -> Z) (req : ResetRequest) (s : Comms),
    (List.length (issued (handleResetService rl req) s) <= 4)%nat /\
    Forall (fun a => is_command (index a) = true /\ stores a = [])
           (issued (handleResetService rl req) s).
Proof.
  intros rl req s.
  destruct (handleResetService_split rl req s)
    as (done & rest & Hsplit & Hsent & _ & _ & _).
  assert (Hissued : issued (handleResetService rl req) s = done).
  { unfold issued. rewrite Hsent. apply skipn_app_exact. }
  rewrite Hissued.
  assert (Hall : Forall (fun a => is_command (index a) = true /\ stores a = [])
                        (flagged rl req)).
  { unfold flagged. destruct req as [[] [] [] []]; cbn;
      repeat constructor. }
  assert (Hlen : (List.length (flagged rl req) <= 4)%nat).
  { unfold flagged. destruct req as [[] [] [] []]; cbn; lia. }
  rewrite Hsplit in Hall, Hlen. rewrite length_app in Hlen.
  split; [lia|].
  apply Forall_app in Hall. exact (proj1 Hall).
Qed.

(** ** The leading steps of the configuration sequence *)

Lemma next_ack_pushed s reg :
  next_ack (pushed s reg) = acks s (S (List.length (sent s))).
Proof. unfold next_ack. rewrite length_sent_pushed. reflexivity. Qed.

Lemma issued_of_sent {A} (c : M A) s r :
  sent (snd (c s)) = sent s ++ r -> issued c s = r.
Proof. intros H. unfold issued. rewrite H. apply skipn_app_exact. Qed.

(** X7: a missing acknowledgment on one of the first three operations
    ends the sequence at that operation with the message of its step:
    "Unable to set communication register." on the first, "Unable to set
    misc config register." on the second, "Command to device failed." on
    the zero-gyros command. *)
Theorem leading_steps_abort_when_unacknowledged :
  forall (rl : RegId -> Z) (fw : Firmware) (ps : ParamServer) (s : Comms),
    In (param (get_int ps "~gps_baud") 9600) supported_bauds ->
    let k := List.length (sent s) in
    (acks s k = false ->
     fst (configureSensor rl fw ps s)
     = Throw (runtime_error "Unable to set communication register.") /\
     map index (issued (configureSensor rl fw ps) s) = [COMMUNICATION]) /\
    (acks s k = true -> acks s (S k) = false ->
     fst (configureSensor rl fw ps s)
     = Throw (runtime_error "Unable to set misc config register.") /\
     map index (issued (configureSensor rl fw ps) s)
     = [COMMUNICATION; MISC_CONFIG]) /\
    (acks s k = true -> acks s (S k) = true -> acks s (S (S k)) = false ->
     param (get_bool ps "~zero_gyros") true = true ->
     fst (configureSensor rl fw ps s)
     = Throw (runtime_error "Command to device failed.") /\
     map index (issued (configureSensor rl fw ps) s)
     = [COMMUNICATION; MISC_CONFIG; ZERO_GYROS]).
Proof.
  intros rl fw ps s Hbaud k.
  destruct (baud_supported _ Hbaud) as (c & Hc & _).
  assert (Hrun : configureSensor rl fw ps s
                 = configureSensor rl fw ps s) by reflexivity.
  unfold configureSensor at 2 in Hrun.
  change (baudValueToBitSetting 115200) with (@Ok Z 5) in Hrun.
  rewrite Hc in Hrun.
  cbv beta iota zeta delta [lift bind] in Hrun.
  rewrite sendWaitAck_run in Hrun.
  change (next_ack s) with (acks s k) in Hrun.
  set (s1 := pushed s _) in Hrun.
  split; [|split].
  - intros H0. rewrite H0 in Hrun. cbv beta iota delta [negb throw] in Hrun.
    rewrite Hrun. split; [reflexivity|].
    erewrite issued_of_sent by (rewrite Hrun; reflexivity). reflexivity.
  - intros H0 H1. rewrite H0 in Hrun. subst s1.
    cbv beta iota delta [negb ret] in Hrun.
    rewrite sendWaitAck_run, next_ack_pushed in Hrun.
    fold k in Hrun. rewrite H1 in Hrun.
    cbv beta iota delta [negb throw] in Hrun.
    rewrite Hrun. split; [reflexivity|].
    erewrite issued_of_sent
      by (rewrite Hrun; unfold pushed; cbn [sent snd];
          rewrite <- app_assoc; reflexivity).
    reflexivity.
  - intros H0 H1 H2 Hzero. rewrite H0 in Hrun. subst s1.
    cbv beta iota delta [negb ret] in Hrun.
    rewrite sendWaitAck_run, next_ack_pushed in Hrun.
    fold k in Hrun. rewrite H1 in Hrun.
    cbv beta iota delta [negb] in Hrun.
    rewrite Hzero in Hrun. rewrite sendCommand_run in Hrun.
    rewrite next_ack_pushed, length_sent_pushed in Hrun.
    cbn [acks pushed] in Hrun. fold k in Hrun. rewrite H2 in Hrun.
    cbv beta iota in Hrun.
    rewrite Hrun. split; [reflexivity|].
    erewrite issued_of_sent
      by (rewrite Hrun; unfold pushed; cbn [sent snd];
          rewrite <- !app_assoc; reflexivity).
    reflexivity.
Qed.

Lemma leading_steps_abort_when_unacknowledged_witness :
  fst (configureSensor um6_reg_length um6_firmware no_params
         (connect never_ack))
  = Throw (runtime_error "Unable to set communication register.") /\
  map index (issued (configureSensor um6_reg_length um6_firmware no_params)
                    (connect (ack_all_but 1)))
  = [COMMUNICATION; MISC_CONFIG] /\
  fst (configureSensor um6_reg_length um6_firmware no_params
         (connect (ack_all_but 2)))
  = Throw (runtime_error "Command to device failed.").
Proof.
  assert (Hbaud : In (param (get_int no_params "~gps_baud") 9600)
                     supported_bauds) by (simpl; tauto).
  split; [|split].
  - exact (proj1 (proj1 (leading_steps_abort_when_unacknowledged
                           um6_reg_length um6_firmware no_params
                           (connect never_ack) Hbaud) eq_refl)).
  - exact (proj2 (proj1 (proj2 (leading_steps_abort_when_unacknowledged
                                  um6_reg_length um6_firmware no_params
                                  (connect (ack_all_but 1)) Hbaud))
                    eq_refl eq_refl)).
  - exact (proj1 (proj2 (proj2 (leading_steps_abort_when_unacknowledged
                                  um6_reg_length um6_firmware no_params
                                  (connect (ack_all_but 2)) Hbaud))
                    eq_refl eq_refl eq_refl eq_refl)).
Defined.

(** ** The order of the configuration sequence *)

Lemma plan_ret {A} (a : A) : runs_plan [] (ret a).
Proof. intros s. exists []. split; [symmetry; apply app_nil_r | reflexivity]. Qed.

Lemma plan_throw {A} (e : exn) L : runs_plan L (@throw A e).
Proof.
  intros s. exists []. split; [symmetry; apply app_nil_r|].
  exists L. reflexivity.
Qed.

Lemma plan_sendWaitAck reg : runs_plan [index reg] (sendWaitAck reg).
Proof. intros s. exists [reg]. split; reflexivity. Qed.

Lemma plan_bind {A B} L1 L2 (c : M A) (k : A -> M B) :
  runs_plan L1 c -> (forall a, runs_plan L2 (k a)) ->
  runs_plan (L1 ++ L2) (bind c k).
Proof.
  intros Hc Hk s. unfold bind.
  destruct (Hc s) as (r1 & H1 & Ho1).
  destruct (c s) as [[a|e] s1]; cbn [fst snd] in *.
  - destruct (Hk a s1) as (r2 & H2 & Ho2).
    exists (r1 ++ r2). split.
    { rewrite H2, H1. symmetry. apply app_assoc. }
    rewrite map_app, Ho1.
    destruct (fst (k a s1)).
    + rewrite Ho2. reflexivity.
    + destruct Ho2 as (rest & ->). exists rest. apply app_assoc.
  - exists r1. split; [exact H1|].
    destruct Ho1 as (rest & ->). exists (rest ++ L2). symmetry. apply app_assoc.
Qed.

Lemma plan_lift {A B} (o : outcome A) L (k : A -> M B) :
  (forall a, o = Ok a -> runs_plan L (k a)) -> runs_plan L (bind (lift o) k).
Proof.
  intros Hk. destruct o as [a|e].
  - exact (Hk a eq_refl).
  - intros s. exists []. split; [symmetry; apply app_nil_r|].
    exists L. reflexivity.
Qed.

Lemma plan_checked_ack (ack : bool) (e : exn) :
  runs_plan [] (if negb ack then throw e else ret tt).
Proof. destruct ack; [apply plan_ret | apply plan_throw]. Qed.

Lemma plan_sendCommand reg : runs_plan [index reg] (sendCommand reg).
Proof.
  unfold sendCommand.
  apply (plan_bind [index reg] []); [apply plan_sendWaitAck|].
  intros ack. apply plan_checked_ack.
Qed.

Lemma plan_configureVector3 ps reg name :
  runs_plan (if has ps name then [index reg] else [])
            (configureVector3 ps reg name).
Proof.
  unfold configureVector3.
  destruct (negb (length reg =? 3)); [apply plan_throw|].
  destruct (has ps name); [|apply plan_ret].
  cbv zeta.
  apply (plan_bind [index reg] []).
  - match goal with
    | |- runs_plan _ (sendWaitAck ?out) => exact (plan_sendWaitAck out)
    end.
  - intros [|]; [apply plan_throw | apply plan_ret].
Qed.

Lemma plan_configureSensor rl fw ps :
  runs_plan (planned ps) (configureSensor rl fw ps).
Proof.
  unfold configureSensor, planned, vector_step.
  apply plan_lift. intros sensor_code _.
  apply plan_lift. intros gps_code _. cbv zeta.
  apply (plan_bind [COMMUNICATION]); [apply plan_sendWaitAck|]. intros ack1.
  apply (plan_bind []); [apply plan_checked_ack|]. intros _.
  apply (plan_bind [MISC_CONFIG]); [apply plan_sendWaitAck|]. intros ack2.
  apply (plan_bind []); [apply plan_checked_ack|]. intros _.
  apply plan_bind.
  { destruct (param (get_bool ps "~zero_gyros") true);
      [apply plan_sendCommand | apply plan_ret]. }
  intros _.
  apply plan_bind; [apply (plan_configureVector3 ps (fresh rl MAG_REF))|].
  intros _.
  apply plan_bind; [apply (plan_configureVector3 ps (fresh rl ACCEL_REF))|].
  intros _.
  apply plan_bind; [apply (plan_configureVector3 ps (fresh rl MAG_BIAS))|].
  intros _.
  apply plan_bind; [apply (plan_configureVector3 ps (fresh rl ACCEL_BIAS))|].
  intros _.
  apply plan_bind; [apply (plan_configureVector3 ps (fresh rl GYRO_BIAS))|].
  intros _.
  destruct (param (get_bool ps "~gps_enable") false);
    [apply (plan_configureVector3 ps (fresh rl GPS_HOME)) | apply plan_ret].
Qed.

(** X8: whatever the parameters and whatever the device answers, the
    registers configureSensor hands to the transport are the planned
    steps in their fixed order (communication, misc-config, zero gyros,
    then the vectors present, GPS home last): all of them when it returns,
    a prefix of them when it throws; never more than nine. *)
Theorem configuration_follows_plan :
  forall (rl : RegId -> Z) (fw : Firmware) (ps : ParamServer) (s : Comms),
    let ops := map index (issued (configureSensor rl fw ps) s) in
    (fst (configureSensor rl fw ps s) = Ok tt -> ops = planned ps) /\
    (exists rest, planned ps = ops ++ rest) /\
    (List.length ops <= 9)%nat.
Proof.
  intros rl fw ps s ops.
  destruct (plan_configureSensor rl fw ps s) as (r & Hsent & Hplan).
  assert (Hops : ops = map index r).
  { subst ops. rewrite (issued_of_sent _ _ _ Hsent). reflexivity. }
  rewrite Hops.
  assert (Hprefix : exists rest, planned ps = map index r ++ rest).
  { destruct (fst (configureSensor rl fw ps s)).
    - exists []. rewrite app_nil_r. symmetry. exact Hplan.
    - exact Hplan. }
  split.
  - intros Hok. rewrite Hok in Hplan. exact Hplan.
  - split; [exact Hprefix|].
    destruct Hprefix as (rest & Hrest).
    assert (Hlen : (List.length (planned ps) <= 9)%nat).
    { unfold planned, vector_step. rewrite !length_app.
      repeat match goal with
             | |- context [if ?b then _ else _] => destruct b
             end; cbn; lia. }
    rewrite Hrest, length_app in Hlen. lia.
Qed.

Lemma configuration_follows_plan_witness :
  map index (issued (configureSensor um6_reg_length um6_firmware no_params)
                    (connect always_ack))
  = [COMMUNICATION; MISC_CONFIG; ZERO_GYROS].
Proof.
  exact (proj1 (configuration_follows_plan um6_reg_length um6_firmware
                  no_params (connect always_ack)) eq_refl).
Defined.

(** X9: configureSensor never issues a step that is not planned: every
    register it hands to the transport is one of the planned ones.  In
    particular GPS home is never written while GPS is disabled, even when
    its parameter group is set, and zero gyros is never commanded when
    that parameter is false. *)
Theorem configuration_issues_planned_steps_only :
  forall (rl : RegId -> Z) (fw : Firmware) (ps : ParamServer) (s : Comms),
    let ops := map index (issued (configureSensor rl fw ps) s) in
    (forall id, In id ops -> In id (planned ps)) /\
    (param (get_bool ps "~gps_enable") false = false -> ~ In GPS_HOME ops) /\
    (param (get_bool ps "~zero_gyros") true = false -> ~ In ZERO_GYROS ops).
Proof.
  intros rl fw ps s ops.
  destruct (plan_configureSensor rl fw ps s) as (r & Hsent & Hplan).
  assert (Hops : ops = map index r).
  { subst ops. rewrite (issued_of_sent _ _ _ Hsent). reflexivity. }
  assert (Hin : forall id, In id ops -> In id (planned ps)).
  { intros id Hid. rewrite Hops in Hid.
    destruct (fst (configureSensor rl fw ps s)).
    - rewrite <- Hplan. exact Hid.
    - destruct Hplan as (rest & ->). apply in_or_app. left. exact Hid. }
  split; [exact Hin|]. split.
  - intros Hgps Hid. apply Hin in Hid.
    unfold planned, vector_step in Hid. rewrite Hgps in Hid.
    repeat match type of Hid with
           | context [if ?b then _ else _] => destruct b
           end; cbn in Hid; intuition discriminate.
  - intros Hzero Hid. apply Hin in Hid.
    unfold planned, vector_step in Hid. rewrite Hzero in Hid.
    repeat match type of Hid with
           | context [if ?b then _ else _] => destruct b
           end; cbn in Hid; intuition discriminate.
Qed.

Lemma configuration_issues_planned_steps_only_witness :
  has gps_home_only_params "~gps_home" = true /\
  ~ In GPS_HOME
       (map index (issued (configureSensor um6_reg_length um6_firmware
                             gps_home_only_params) (connect always_ack))) /\
  ~ In ZERO_GYROS
       (map index (issued (configureSensor um6_reg_length um6_firmware
                             gps_home_only_params) (connect always_ack))).
Proof.
  destruct (configuration_issues_planned_steps_only um6_reg_length
              um6_firmware gps_home_only_params (connect always_ack))
    as (_ & Hgps & Hzero).
  split; [reflexivity|].
  split; [exact (Hgps eq_refl) | exact (Hzero eq_refl)].
Defined.

Lemma configureSensor_acknowledged :
  forall (rl : RegId -> Z) (fw : Firmware) (ps : ParamServer) (s : Comms),
    vector_registers_ok rl ->
    In (param (get_int ps "~gps_baud") 9600) supported_bauds ->
    acknowledging s ->
    fst (configureSensor rl fw ps s)
    = if any_vector_planned ps
      then Throw (runtime_error "Unable to configure vector.")
      else Ok tt.
Proof.
  intros rl fw ps s (L1 & L2 & L3 & L4 & L5 & L6) Hbaud Hack.
  destruct (baud_supported _ Hbaud) as (c & Hc & _).
  unfold configureSensor, any_vector_planned.
  change (baudValueToBitSetting 115200) with (@Ok Z 5).
  rewrite Hc.
  cbv beta iota zeta delta [lift bind].
  rewrite sendWaitAck_run.
  rewrite (acknowledging_next s Hack). cbv beta iota delta [negb ret].
  set (s1 := pushed s _).
  assert (Hack1 : acknowledging s1) by (apply acknowledging_pushed; exact Hack).
  rewrite sendWaitAck_run.
  rewrite (acknowledging_next s1 Hack1). cbv beta iota.
  set (s2 := pushed s1 _).
  assert (Hack2 : acknowledging s2) by (apply acknowledging_pushed; exact Hack1).
  assert (Hstep : forall t,
            acknowledging t ->
            fst (let (o, t1) :=
                   configureVector3 ps (fresh rl MAG_REF) "~mag_ref" t in
                 match o with
                 | Ok _ =>
                   let (o0, t2) :=
                     configureVector3 ps (fresh rl ACCEL_REF) "~accel_ref" t1 in
                   match o0 with
                   | Ok _ =>
                     let (o1, t3) :=
                       configureVector3 ps (fresh rl MAG_BIAS) "~mag_bias" t2 in
                     match o1 with
                     | Ok _ =>
                       let (o2, t4) :=
                         configureVector3 ps (fresh rl ACCEL_BIAS)
                           "~accel_bias" t3 in
                       match o2 with
                       | Ok _ =>
                         let (o3, t5) :=
                           configureVector3 ps (fresh rl GYRO_BIAS)
                             "~gyro_bias" t4 in
                         match o3 with
                         | Ok _ =>
                           (if param (get_bool ps "~gps_enable") false
                            then configureVector3 ps (fresh rl GPS_HOME)
                                   "~gps_home"
                            else ret tt) t5
                         | Throw e => (Throw e, t5)
                         end
                       | Throw e => (Throw e, t4)
                       end
                     | Throw e => (Throw e, t3)
                     end
                   | Throw e => (Throw e, t2)
                   end
                 | Throw e => (Throw e, t1)
                 end)
            = if any_vector_planned ps
              then Throw (runtime_error "Unable to configure vector.")
              else Ok tt).
  { intros t Ht. unfold any_vector_planned.
    repeat match goal with
    | |- context [configureVector3 ps (fresh rl ?id) ?name ?u] =>
        destruct (has ps name) eqn:?;
        [ rewrite (configureVector3_present ps (fresh rl id) name u)
            by (assumption || reflexivity);
          rewrite (acknowledging_next u) by exact Ht;
          cbn [orb andb]; rewrite ?orb_true_r; try reflexivity
        | rewrite (configureVector3_absent ps (fresh rl id) name u)
            by (assumption || reflexivity);
          cbn [orb andb] ]
    | |- context [if param (get_bool ps "~gps_enable") false then _ else _] =>
        destruct (param (get_bool ps "~gps_enable") false); cbn [orb andb]
    end;
    try reflexivity;
    destruct (param (get_bool ps "~gps_enable") false); reflexivity. }
  fold (any_vector_planned ps).
  destruct (param (get_bool ps "~zero_gyros") true).
  - rewrite sendCommand_run. rewrite (acknowledging_next s2 Hack2).
    cbv beta iota. apply Hstep. apply acknowledging_pushed. exact Hack2.
  - apply Hstep. exact Hack2.
Qed.

(** X10: on a device that acknowledges every operation, configureSensor
    returns normally exactly when no vector step is planned; as soon as
    one of the vector groups is present it ends with "Unable to configure
    vector.", and the connection pass of main ends in the [catch] handler
    instead of the streaming loop. *)
Theorem acknowledging_device_configures_without_vectors_only :
  forall (rl : RegId -> Z) (fw : Firmware) (ps : ParamServer)
         (a : nat -> bool) (blank : Snapshot) (n : Node),
    vector_registers_ok rl ->
    In (param (get_int ps "~gps_baud") 9600) supported_bauds ->
    (forall k, a k = true) ->
    fst (configureSensor rl fw ps (connect a))
    = (if any_vector_planned ps
       then Throw (runtime_error "Unable to configure vector.")
       else Ok tt) /\
    session (configure_pass rl fw ps a blank n)
    = (if any_vector_planned ps then Faulted else Streaming) /\
    isOpen (ser (configure_pass rl fw ps a blank n))
    = (if any_vector_planned ps then false else isOpen (ser n)).
Proof.
  intros rl fw ps a blank n Hrl Hbaud Hack.
  pose proof (configureSensor_acknowledged rl fw ps (connect a) Hrl Hbaud Hack)
    as Hrun.
  split; [exact Hrun|].
  unfold configure_pass.
  destruct (configureSensor rl fw ps (connect a)) as [[[]|e] s1];
    cbn [fst] in Hrun;
    destruct (any_vector_planned ps); try discriminate Hrun;
    cbn [on_exception session ser isOpen];
    (split; [reflexivity|]); try reflexivity.
  destruct (isOpen (ser n)); reflexivity.
Qed.

Lemma acknowledging_device_configures_without_vectors_only_witness :
  session (configure_pass um6_reg_length um6_firmware mag_ref_params
             always_ack blank_snapshot
             (open_pass true (main_init mag_ref_params blank_snapshot)))
  = Faulted /\
  session (configure_pass um6_reg_length um6_firmware no_params
             always_ack blank_snapshot
             (open_pass true (main_init no_params blank_snapshot)))
  = Streaming.
Proof.
  assert (Hrl : vector_registers_ok um6_reg_length) by (repeat split).
  split.
  - refine (proj1 (proj2 (acknowledging_device_configures_without_vectors_only
                            um6_reg_length um6_firmware mag_ref_params
                            always_ack blank_snapshot _ Hrl _ _)));
      [simpl; tauto | intros k; reflexivity].
  - refine (proj1 (proj2 (acknowledging_device_configures_without_vectors_only
                            um6_reg_length um6_firmware no_params
                            always_ack blank_snapshot _ Hrl _ _)));
      [simpl; tauto | intros k; reflexivity].
Defined.

(** ** The GPS baud field of the communication register *)

(** X11: the communication register written first carries, at the
    GPS-baud bit position, the 3-bit code of the configured ~gps_baud
    rate (9600 when unset), whether or not GPS is enabled. *)
Theorem comm_register_carries_gps_baud :
  forall (rl : RegId -> Z) (fw : Firmware) (ps : ParamServer)
         (a : nat -> bool) (code : Z),
    gps_baud_field_clear fw = true ->
    baudValueToBitSetting (param (get_int ps "~gps_baud") 9600) = Ok code ->
    exists v rest,
      sent (snd (configureSensor rl fw ps (connect a)))
      = set (fresh rl COMMUNICATION) 0 v :: rest /\
      gps_baud_field fw v = code.
Proof.
  intros rl fw ps a code Hfw Hcode.
  assert (Hbaud : In (param (get_int ps "~gps_baud") 9600) supported_bauds).
  { destruct (in_dec Z.eq_dec (param (get_int ps "~gps_baud") 9600)
                supported_bauds) as [Hin|Hout]; [exact Hin|].
    rewrite (baud_unsupported _ Hout) in Hcode. discriminate Hcode. }
  destruct (baud_supported _ Hbaud) as (c & Hc & Hrange).
  assert (c = code) by congruence. subst c.
  destruct (configureSensor_first_write rl fw ps a code Hcode)
    as (rest & Hsent).
  eexists; exists rest. split; [exact Hsent|].
  revert Hfw. unfold gps_baud_field_clear. rewrite !andb_true_iff.
  intros ((((Ht0 & Ht32) & Hs0) & Hflags) & Hsensor).
  apply Z.leb_le in Ht0, Ht32, Hs0. apply Z.eqb_eq in Hflags, Hsensor.
  set (sb := UM6_BAUD_START_BIT fw) in *.
  set (tb := UM6_GPS_BAUD_START_BIT fw) in *.
  unfold gps_baud_field, bitfield. fold tb.
  apply Z.bits_inj'. intros n Hn.
  rewrite Z.land_spec, Z.shiftr_spec by lia.
  rewrite testbit_7 by lia.
  destruct (Z.ltb_spec n 3) as [Hlow|Hhigh].
  2:{ rewrite andb_false_r. symmetry. apply testbit_code_high; lia. }
  rewrite andb_true_r.
  assert (Hfl : Z.testbit (comm_flags fw) (n + tb) = false /\
                Z.testbit (gps_flags fw) (n + tb) = false).
  { pose proof (f_equal (fun z => Z.testbit z (n + tb)) Hflags) as Hb.
    cbv beta in Hb.
    rewrite Z.land_spec, Z.lor_spec, Z.shiftl_spec, Z.testbit_0_l in Hb by lia.
    replace (n + tb - tb) with n in Hb by lia.
    rewrite testbit_7 in Hb by lia.
    destruct (Z.ltb_spec n 3); [|lia].
    rewrite andb_true_r in Hb. apply orb_false_elim in Hb. exact Hb. }
  destruct Hfl as [HA HG].
  assert (H5 : Z.testbit (Z.shiftl 5 sb) (n + tb) = false).
  { rewrite Z.shiftl_spec by lia.
    destruct (Z.lt_ge_cases (n + tb - sb) 0) as [Hneg|Hpos];
      [apply Z.testbit_neg_r; exact Hneg|].
    pose proof (f_equal (fun z => Z.testbit z (n + tb)) Hsensor) as Hb.
    cbv beta in Hb.
    rewrite Z.land_spec, !Z.shiftl_spec, Z.testbit_0_l in Hb by lia.
    replace (n + tb - tb) with n in Hb by lia.
    rewrite !testbit_7 in Hb by lia.
    destruct (Z.ltb_spec n 3); [|lia].
    rewrite andb_true_r in Hb.
    apply Z.ltb_ge in Hb.
    apply testbit_code_high; lia. }
  assert (Hg : Z.testbit (Z.shiftl code tb) (n + tb) = Z.testbit code n).
  { rewrite Z.shiftl_spec by lia. f_equal. lia. }
  unfold comm_reg_value. fold sb tb.
  destruct (param (get_bool ps "~gps_enable") false);
    rewrite ?testbit_to_uint32, ?Z.lor_spec, ?testbit_to_uint32,
            ?Z.lor_spec by lia;
    rewrite HA, Hg, H5, ?HG, ?orb_false_r; reflexivity.
Qed.

Lemma comm_register_carries_gps_baud_witness :
  exists v rest,
    sent (snd (configureSensor um6_reg_length um6_firmware
                 gps_baud_57600_params (connect always_ack)))
    = set (fresh um6_reg_length COMMUNICATION) 0 v :: rest /\
    gps_baud_field um6_firmware v = 4.
Proof.
  exact (comm_register_carries_gps_baud um6_reg_length um6_firmware
           gps_baud_57600_params always_ack 4 eq_refl eq_refl).
Defined.

(** ** What publishMsgs hands to the bus *)

(** X12: with no subscriber on any topic and no odometry topic
    configured, a call of publishMsgs hands nothing to the bus. *)
Theorem nothing_published_without_subscribers :
  forall (fw : Firmware) (ps : ParamServer) (bus : Bus)
         (cos sin : double -> double) (r : Snapshot) (header : Header),
    (forall topic, getNumSubscribers bus topic <= 0) ->
    has ps "~gps_odom" = false ->
    publishMsgs fw ps bus cos sin r header = [].
Proof.
  intros fw ps bus cos sin r header Hsubs Hodom.
  assert (Hoff : forall topic, (0 <? getNumSubscribers bus topic) = false).
  { intros topic. apply Z.ltb_ge. apply Hsubs. }
  unfold publishMsgs, when_subscribed. rewrite !Hoff, Hodom.
  destruct (param (get_bool ps "~gps_enable") false); reflexivity.
Qed.

Lemma nothing_published_without_subscribers_witness :
  publishMsgs um6_firmware gps_params quiet_bus Double.neg Double.neg
    gps_snapshot header0 = [].
Proof.
  apply nothing_published_without_subscribers.
  - intros topic. simpl. lia.
  - reflexivity.
Defined.



(** X14: while GPS is disabled a call publishes on the four inertial
    topics at most, once each and in the order imu/data, imu/mag, imu/rpy,
    imu/temperature; no GPS topic is used and no odometry record leaves,
    even when ~gps_odom is set. *)
Theorem gps_disabled_publishes_inertial_topics_only :
  forall (fw : Firmware) (ps : ParamServer) (bus : Bus)
         (cos sin : double -> double) (r : Snapshot) (header : Header),
    param (get_bool ps "~gps_enable") false = false ->
    map fst (publishMsgs fw ps bus cos sin r header)
    = filter (fun topic => 0 <? getNumSubscribers bus topic)
             ["imu/data"; "imu/mag"; "imu/rpy"; "imu/temperature"].
Proof.
  intros fw ps bus cos sin r header Hgps.
  unfold publishMsgs, when_subscribed. rewrite Hgps. cbn [filter].
  destruct (0 <? getNumSubscribers bus "imu/data");
    destruct (0 <? getNumSubscribers bus "imu/mag");
    destruct (0 <? getNumSubscribers bus "imu/rpy");
    destruct (0 <? getNumSubscribers bus "imu/temperature"); reflexivity.
Qed.

Lemma gps_disabled_publishes_inertial_topics_only_witness :
  map fst (publishMsgs um6_firmware odom_without_gps_params busy_bus
             Double.neg Double.neg gps_snapshot header0)
  = ["imu/data"; "imu/mag"; "imu/rpy"; "imu/temperature"].
Proof.
  exact (gps_disabled_publishes_inertial_topics_only um6_firmware
           odom_without_gps_params busy_bus Double.neg Double.neg
           gps_snapshot header0 eq_refl).
Defined.

(** X15: the nine orientation-covariance entries published are the
    lower-right 3x3 block of the raw 4x4 row-major covariance: output
    entry (i, j) is raw entry (i+1, j+1), with no frame conversion. *)
Theorem orientation_covariance_block :
  forall (fw : Firmware) (ps : ParamServer) (bus : Bus)
         (cos sin : double -> double) (r : Snapshot) (header : Header)
         (topic : string) (m : Imu),
    In (topic, ImuMsg m) (publishMsgs fw ps bus cos sin r header) ->
    List.length (orientation_covariance m) = 9%nat /\
    forall i j : nat, (i < 3)%nat -> (j < 3)%nat ->
      nth_error (orientation_covariance m) (3 * i + j)
      = Some (get_scaled r COVARIANCE
                (Z.of_nat (4 * (i + 1) + (j + 1)))).
Proof.
  intros fw ps bus cos sin r header topic m H.
  destruct (published_imu _ _ _ _ _ _ _ _ _ H) as [_ ->].
  split; [reflexivity|].
  intros i j Hi Hj.
  destruct i as [|[|[|i]]]; [| | |lia];
    (destruct j as [|[|[|j]]]; [| | |lia]); reflexivity.
Qed.

Lemma orientation_covariance_block_witness :
  exists m,
    In ("imu/data", ImuMsg m)
       (publishMsgs um6_firmware no_params busy_bus Double.neg Double.neg
          covariance_snapshot header0) /\
    nth_error (orientation_covariance m) 4 = Some (Double.of_Z 10).
Proof.
  exists (imu_msg covariance_snapshot header0).
  assert (Hin : In ("imu/data", ImuMsg (imu_msg covariance_snapshot header0))
                   (publishMsgs um6_firmware no_params busy_bus Double.neg
                      Double.neg covariance_snapshot header0))
    by (left; reflexivity).
  split; [exact Hin|].
  apply (proj2 (orientation_covariance_block _ _ _ _ _ _ _ _ _ Hin) 1%nat
               1%nat); lia.
Defined.

Lemma bitfield_isolated (lo v hi start w : Z) :
  0 <= start -> 0 <= w -> 0 <= lo < 2 ^ start -> 0 <= v < 2 ^ w ->
  bitfield (lo + v * 2 ^ start + hi * 2 ^ (start + w)) start (2 ^ w - 1) = v.
Proof.
  intros Hs Hw Hlo Hv. unfold bitfield.
  rewrite Z.shiftr_div_pow2 by exact Hs.
  replace (2 ^ w - 1) with (Z.ones w) by (rewrite Z.ones_equiv; lia).
  rewrite Z.land_ones by exact Hw.
  rewrite Z.pow_add_r by assumption.
  replace (lo + v * 2 ^ start + hi * (2 ^ start * 2 ^ w))
    with (lo + (v + hi * 2 ^ w) * 2 ^ start) by ring.
  rewrite Z.div_add by lia.
  rewrite Z.div_small by exact Hlo.
  rewrite Z.add_0_l, Z.mod_add by lia.
  apply Z.mod_small. exact Hv.
Qed.

(** X16: the GPS status code and the satellite count are decoded from
    the status register by shift and mask, untouched by the other bits of
    the register: when the field holds [v], with anything below and above
    it, a subscribed channel receives exactly [v]. *)
Theorem gps_status_fields_isolated :
  forall (fw : Firmware) (ps : ParamServer) (bus : Bus)
         (cos sin : double -> double) (r : Snapshot) (header : Header)
         (topic : string) (start w lo v hi : Z),
    (topic = "imu/gps_status" /\ start = UM6_GPS_MODE_START_BIT fw /\
     UM6_GPS_MODE_MASK fw = 2 ^ w - 1) \/
    (topic = "imu/gps_num_sat" /\ start = UM6_GPS_SAT_COUNT_START_BIT fw /\
     UM6_GPS_SAT_COUNT_MASK fw = 2 ^ w - 1) ->
    param (get_bool ps "~gps_enable") false = true ->
    0 < getNumSubscribers bus topic ->
    0 <= start -> 0 <= w <= 8 -> 0 <= lo < 2 ^ start -> 0 <= v < 2 ^ w ->
    get r GPS_STATUS 0 = lo + v * 2 ^ start + hi * 2 ^ (start + w) ->
    In (topic, UInt8 v) (publishMsgs fw ps bus cos sin r header).
Proof.
  intros fw ps bus cos sin r header topic start w lo v hi Hfield Hgps Hsub
         Hstart Hw Hlo Hv Hreg.
  apply Z.ltb_lt in Hsub.
  assert (Hbyte : to_uint8 v = v).
  { unfold to_uint8. apply Z.mod_small.
    assert (2 ^ w <= 2 ^ 8) by (apply Z.pow_le_mono_r; lia). lia. }
  unfold publishMsgs, when_subscribed. rewrite Hgps, Hreg.
  destruct Hfield as [(-> & -> & Hmask) | (-> & -> & Hmask)];
    rewrite Hmask, bitfield_isolated, Hbyte, Hsub by (assumption || lia);
    do 4 (apply in_or_app; right).
  - apply in_or_app. left. left. reflexivity.
  - do 4 (apply in_or_app; right). apply in_or_app. left. left. reflexivity.
Qed.

Lemma gps_status_fields_isolated_witness :
  In ("imu/gps_status", UInt8 3)
     (publishMsgs um6_firmware gps_params busy_bus Double.neg Double.neg
        gps_snapshot header0) /\
  In ("imu/gps_num_sat", UInt8 9)
     (publishMsgs um6_firmware gps_params busy_bus Double.neg Double.neg
        gps_snapshot header0).
Proof.
  split.
  - apply (gps_status_fields_isolated um6_firmware gps_params busy_bus
             Double.neg Double.neg gps_snapshot header0 "imu/gps_status"
             30 2 (Z.lor (Z.lor (Z.shiftl 9 26) (Z.shiftl 5 16))
                         (Z.shiftl 7 6)) 3 0);
      try reflexivity; try (vm_compute; intuition discriminate).
  - apply (gps_status_fields_isolated um6_firmware gps_params busy_bus
             Double.neg Double.neg gps_snapshot header0 "imu/gps_num_sat"
             26 4 (Z.lor (Z.shiftl 5 16) (Z.shiftl 7 6)) 9 3);
      try reflexivity; try (vm_compute; intuition discriminate).
Defined.

(** X17: both covariance matrices of the odometry record are diagonal
    6x6 matrices: the pose covariance carries sqrt(hdop^2 + vdop^2) on its
    three position entries and 999999 on its three orientation entries,
    the twist covariance 999999 on all six, and every other entry is
    zero. *)
Theorem odometry_covariances_diagonal :
  forall (fw : Firmware) (cos sin : double -> double) (r : Snapshot)
         (header : Header) (i : nat),
    (i < 36)%nat ->
    let o := gps_odom_msg fw cos sin r header in
    let pdop :=
      Double.sqrt (Double.add (Double.mul (hdop_of fw r) (hdop_of fw r))
                              (Double.mul (vdop_of fw r) (vdop_of fw r))) in
    nth_error (pose_covariance o) i
    = Some (if Nat.eqb (i mod 7) 0
            then if Nat.ltb i 21 then pdop else Double.of_Z 999999
            else Double.of_Z 0) /\
    nth_error (twist_covariance o) i
    = Some (if Nat.eqb (i mod 7) 0 then Double.of_Z 999999
            else Double.of_Z 0).
Proof.
  intros fw cos sin r header i Hi o pdop. subst o pdop.
  unfold gps_odom_msg.
  cbn [pose_covariance twist_covariance repeat assign].
  do 36 (destruct i as [|i]; [split; reflexivity|]).
  lia.
Qed.

Lemma odometry_covariances_diagonal_witness :
  nth_error (pose_covariance (gps_odom_msg um6_firmware Double.neg Double.neg
                                gps_snapshot header0)) 28
  = Some (Double.of_Z 999999) /\
  nth_error (twist_covariance (gps_odom_msg um6_firmware Double.neg Double.neg
                                 gps_snapshot header0)) 29
  = Some (Double.of_Z 0).
Proof.
  split.
  - apply (odometry_covariances_diagonal um6_firmware Double.neg Double.neg
             gps_snapshot header0 28). lia.
  - apply (odometry_covariances_diagonal um6_firmware Double.neg Double.neg
             gps_snapshot header0 29). lia.
Defined.

(** ** The connection loop *)

Lemma failed_open_fields n :
  ser (open_pass false n) = ser n /\
  first_failure (open_pass false n) = false /\
  session (open_pass false n) = Disconnected /\
  sensor (open_pass false n) = sensor n /\
  registers (open_pass false n) = registers n /\
  outbox (open_pass false n) = outbox n /\
  replies (open_pass false n) = replies n /\
  errors (open_pass false n) = errors n.
Proof. repeat split. Qed.

(** X18: however many attempts to open the port fail in a row, the
    warning "Could not connect to serial device <port>. Trying again every
    1 second." is recorded once, on the first of them; the port settings
    are kept, and the first successful open re-arms the warning. *)
Theorem connection_warning_logged_once :
  forall (k : nat) (n : Node),
    first_failure n = true ->
    let n' := Nat.iter (S k) (open_pass false) n in
    warnings n'
    = warnings n ++
      [("Could not connect to serial device " ++ port (ser n) ++
        ". Trying again every 1 second.")%string] /\
    first_failure n' = false /\
    session n' = Disconnected /\
    ser n' = ser n /\
    warnings (open_pass true n') = warnings n' /\
    first_failure (open_pass true n') = true.
Proof.
  intros k n Hfirst. cbv zeta.
  assert (H : warnings (Nat.iter (S k) (open_pass false) n)
              = warnings n ++
                [("Could not connect to serial device " ++ port (ser n) ++
                  ". Trying again every 1 second.")%string] /\
              first_failure (Nat.iter (S k) (open_pass false) n) = false /\
              session (Nat.iter (S k) (open_pass false) n) = Disconnected /\
              ser (Nat.iter (S k) (open_pass false) n) = ser n).
  { induction k as [|k IH].
    - cbn [Nat.iter nat_rect]. unfold open_pass. rewrite Hfirst.
      repeat split.
    - destruct IH as (Hw & Hf & Hs & Hser).
      change (Nat.iter (S (S k)) (open_pass false) n)
        with (open_pass false (Nat.iter (S k) (open_pass false) n)).
      set (m := Nat.iter (S k) (open_pass false) n) in *.
      unfold open_pass at 1 2 3 4. rewrite Hf. cbn [warnings first_failure
        session ser].
      repeat split; assumption. }
  destruct H as (Hw & Hf & Hs & Hser).
  repeat split; assumption.
Qed.

Lemma connection_warning_logged_once_witness :
  warnings (Nat.iter 3 (open_pass false) (main_init no_params blank_snapshot))
  = ["Could not connect to serial device /dev/ttyUSB0. Trying again every 1 second."].
Proof.
  exact (proj1 (connection_warning_logged_once 2
                  (main_init no_params blank_snapshot) eq_refl)).
Defined.

(** X19: a received register that is not the trigger register only
    updates the snapshot: nothing is published, no pending reset request
    is served, nothing is sent to the device, and the session keeps
    streaming. *)
Theorem non_trigger_packet_only_updates_snapshot :
  forall (rl : RegId -> Z) (fw : Firmware) (ps : ParamServer) (bus : Bus)
         (cos sin : double -> double) (guard : CallbackGuard)
         (id : Z) (regs : Snapshot) (now : Z)
         (pending : list ResetRequest) (n : Node),
    id <> TRIGGER_PACKET fw ->
    let n' := stream_pass rl fw ps bus cos sin guard (Ok (id, regs)) now
                pending n in
    registers n' = regs /\ outbox n' = outbox n /\ replies n' = replies n /\
    sensor n' = sensor n /\ session n' = Streaming /\ ser n' = ser n /\
    errors n' = errors n.
Proof.
  intros rl fw ps bus cos sin guard id regs now pending n Hid. cbv zeta.
  unfold stream_pass.
  destruct (Z.eqb_spec id (TRIGGER_PACKET fw)) as [E|_]; [contradiction|].
  repeat split.
Qed.

Lemma non_trigger_packet_only_updates_snapshot_witness :
  replies (stream_pass um6_reg_length um6_firmware no_params busy_bus
             Double.neg Double.neg Contained (Ok (92, gps_snapshot)) 0
             [mkResetRequest true false false false] streaming_node) = [] /\
  outbox (stream_pass um6_reg_length um6_firmware no_params busy_bus
            Double.neg Double.neg Contained (Ok (92, gps_snapshot)) 0
            [mkResetRequest true false false false] streaming_node) = [].
Proof.
  assert (Hid : 92 <> TRIGGER_PACKET um6_firmware)
    by (vm_compute; discriminate).
  destruct (non_trigger_packet_only_updates_snapshot um6_reg_length
              um6_firmware no_params busy_bus Double.neg Double.neg Contained
              92 gps_snapshot 0 [mkResetRequest true false false false]
              streaming_node Hid) as (_ & Hout & Hrep & _).
  split; [exact Hrep | exact Hout].
Defined.

(** A failure of the blocking receive ends the connection: the handler
    closes the port, records the exception and leaves the session Faulted;
    nothing is published or answered on the way. *)
Lemma receive_failure_faults_the_session :
  forall (rl : RegId -> Z) (fw : Firmware) (ps : ParamServer) (bus : Bus)
         (cos sin : double -> double) (guard : CallbackGuard)
         (e : exn) (now : Z) (pending : list ResetRequest) (n : Node),
    let n' := stream_pass rl fw ps bus cos sin guard (Throw e) now
                pending n in
    session n' = Faulted /\ isOpen (ser n') = false /\
    errors n' = errors n ++ [e] /\
    port (ser n') = port (ser n) /\ baudrate (ser n') = baudrate (ser n) /\
    outbox n' = outbox n /\ replies n' = replies n /\
    sent (sensor n') = sent (sensor n).
Proof.
  intros rl fw ps bus cos sin guard e now pending n. cbv zeta.
  unfold stream_pass, on_exception. cbn.
  destruct (isOpen (ser n)); repeat split.
Qed.

Lemma on_exception_closed e n :
  isOpen (ser (on_exception e n)) = false /\
  session (on_exception e n) = Faulted /\
  port (ser (on_exception e n)) = port (ser n) /\
  baudrate (ser (on_exception e n)) = baudrate (ser n).
Proof. unfold on_exception. cbn. destruct (isOpen (ser n)); repeat split. Qed.

(** X20: at every loop head main can reach, the port is open exactly
    when the session is Configuring or Streaming (every fault has closed
    it, every failed open has left it closed), and the port name and baud
    rate are still the ones read from the parameters at start-up. *)
Theorem port_open_iff_connected :
  forall (rl : RegId -> Z) (fw : Firmware) (ps : ParamServer) (bus : Bus)
         (cos sin : double -> double) (guard : CallbackGuard)
         (blank : Snapshot) (n : Node),
    reachable rl fw ps bus cos sin guard blank n ->
    (isOpen (ser n) = true <->
     session n = Configuring \/ session n = Streaming) /\
    session n <> Connecting /\
    port (ser n) = param (get_string ps "~port") "/dev/ttyUSB0" /\
    baudrate (ser n) = param (get_int ps "~baud") 115200.
Proof.
  intros rl fw ps bus cos sin guard blank n Hreach.
  induction Hreach as [ | opened n Hreach IH Hs | a n Hreach IH Hs
                        | inbound now pending n Hreach IH Hs ].
  - cbn. repeat split; try discriminate.
    intros [H|H]; discriminate H.
  - destruct IH as (Hopen & _ & Hport & Hbaud).
    destruct opened; cbn [open_pass ser session isOpen port baudrate].
    + repeat split; auto; discriminate.
    + split; [|repeat split; auto; discriminate].
      split.
      * intros H. apply Hopen in H.
        destruct Hs as [Hs|Hs]; rewrite Hs in H;
          destruct H as [H|H]; discriminate H.
      * intros [H|H]; discriminate H.
  - destruct IH as (Hopen & _ & Hport & Hbaud).
    unfold configure_pass.
    destruct (configureSensor rl fw ps (connect a)) as [[u|e] s1].
    + cbn [ser session]. repeat split; auto; try discriminate.
      intros _. apply Hopen. left. exact Hs.
    + destruct (on_exception_closed e
                  (mkNode (ser n) (first_failure n) Configuring s1
                     (registers n) (outbox n) (replies n) (errors n)
                     (warnings n))) as (Hc & Hf & Hp & Hb).
      cbn [ser] in Hp, Hb.
      rewrite Hc, Hf, Hp, Hb.
      repeat split; auto; try discriminate.
      intros [H|H]; discriminate H.
  - destruct IH as (Hopen & _ & Hport & Hbaud).
    assert (Hon : isOpen (ser n) = true) by (apply Hopen; right; exact Hs).
    unfold stream_pass.
    destruct inbound as [[id regs]|e].
    + destruct (id =? TRIGGER_PACKET fw).
      * destruct (spinOnce rl guard pending (sensor n) (replies n))
          as [[[u|e] s1] rs].
        -- cbn [ser session]. repeat split; auto; discriminate.
        -- match goal with
           | |- context [on_exception e ?m] =>
               destruct (on_exception_closed e m) as (Hc & Hf & Hp & Hb)
           end.
           cbn [ser] in Hp, Hb. rewrite Hc, Hf, Hp, Hb.
           repeat split; auto; try discriminate.
           intros [H|H]; discriminate H.
      * cbn [ser session]. repeat split; auto; discriminate.
    + destruct (on_exception_closed e n) as (Hc & Hf & Hp & Hb).
      rewrite Hc, Hf, Hp, Hb.
      repeat split; auto; try discriminate.
      intros [H|H]; discriminate H.
Qed.

Lemma port_open_iff_connected_witness :
  isOpen (ser (stream_pass um6_reg_length um6_firmware no_params busy_bus
                 Double.neg Double.neg Contained
                 (Throw (runtime_error "receive failed")) 0 []
                 (configure_pass um6_reg_length um6_firmware no_params
                    always_ack blank_snapshot
                    (open_pass true (main_init no_params blank_snapshot)))))
  <> true.
Proof.
  intros H.
  assert (R : reachable um6_reg_length um6_firmware no_params busy_bus
                Double.neg Double.neg Contained blank_snapshot
                (stream_pass um6_reg_length um6_firmware no_params busy_bus
                   Double.neg Double.neg Contained
                   (Throw (runtime_error "receive failed")) 0 []
                   (configure_pass um6_reg_length um6_firmware no_params
                      always_ack blank_snapshot
                      (open_pass true (main_init no_params blank_snapshot))))).
  { apply reach_stream; [|reflexivity].
    apply reach_configure; [|reflexivity].
    apply reach_open; [apply reach_init | left; reflexivity]. }
  destruct (proj1 (proj1 (port_open_iff_connected _ _ _ _ _ _ _ _ _ R)) H)
    as [E|E]; discriminate E.
Defined.

Lemma failed_opens_keep_node k : forall n,
  ser (Nat.iter k (open_pass false) n) = ser n /\
  sensor (Nat.iter k (open_pass false) n) = sensor n /\
  registers (Nat.iter k (open_pass false) n) = registers n /\
  outbox (Nat.iter k (open_pass false) n) = outbox n /\
  replies (Nat.iter k (open_pass false) n) = replies n /\
  errors (Nat.iter k (open_pass false) n) = errors n.
Proof.
  induction k as [|k IH]; intros n; [repeat split|].
  change (Nat.iter (S k) (open_pass false) n)
    with (open_pass false (Nat.iter k (open_pass false) n)).
  destruct (IH n) as (H1 & H2 & H3 & H4 & H5 & H6).
  destruct (failed_open_fields (Nat.iter k (open_pass false) n))
    as (F1 & _ & _ & F2 & F3 & F4 & F5 & F6).
  rewrite F1, F2, F3, F4, F5, F6. repeat split; assumption.
Qed.

(** X21: from any node state, after any number of failed attempts, one
    successful open followed by the configuration of a device that
    acknowledges everything brings the session to Streaming when no
    vector group is set and GPS is disabled: the port is open, the
    snapshot is blank, the transport is a new connection on which exactly
    the planned steps were sent, and the earlier errors, messages and
    replies of the node are kept. *)
Theorem reconnect_configures_from_scratch :
  forall (rl : RegId -> Z) (fw : Firmware) (ps : ParamServer)
         (a : nat -> bool) (blank : Snapshot) (k : nat) (n : Node),
    vector_registers_ok rl -> no_vector_params ps ->
    param (get_bool ps "~gps_enable") false = false ->
    In (param (get_int ps "~gps_baud") 9600) supported_bauds ->
    (forall i, a i = true) ->
    let n' := configure_pass rl fw ps a blank
                (open_pass true (Nat.iter k (open_pass false) n)) in
    session n' = Streaming /\
    isOpen (ser n') = true /\
    port (ser n') = port (ser n) /\ baudrate (ser n') = baudrate (ser n) /\
    first_failure n' = true /\
    registers n' = blank /\
    acks (sensor n') = a /\
    map index (sent (sensor n')) = planned ps /\
    errors n' = errors n /\ outbox n' = outbox n /\ replies n' = replies n.
Proof.
  intros rl fw ps a blank k n Hrl Hvec Hgps Hbaud Hack. cbv zeta.
  destruct (baud_supported _ Hbaud) as (c & Hc & _).
  assert (Hconn : acknowledging (connect a)) by exact Hack.
  pose proof (configureSensor_no_vectors rl fw ps (connect a) c Hrl Hvec
                Hgps Hc Hconn) as Hrun.
  destruct (failed_opens_keep_node k n) as (H1 & H2 & H3 & H4 & H5 & H6).
  unfold configure_pass. rewrite Hrun.
  cbn [open_pass ser session first_failure registers errors outbox replies
       sensor isOpen port baudrate].
  rewrite H1, H4, H5, H6.
  repeat split.
  - destruct (param (get_bool ps "~zero_gyros") true); reflexivity.
  - destruct Hvec as (V1 & V2 & V3 & V4 & V5).
    unfold planned, vector_step. rewrite V1, V2, V3, V4, V5, Hgps.
    destruct (param (get_bool ps "~zero_gyros") true); reflexivity.
Qed.

Lemma reconnect_configures_from_scratch_witness :
  session (configure_pass um6_reg_length um6_firmware no_params always_ack
             blank_snapshot
             (open_pass true
                (Nat.iter 2 (open_pass false)
                   (on_exception (runtime_error "receive failed")
                      streaming_node))))
  = Streaming.
Proof.
  assert (Hrl : vector_registers_ok um6_reg_length) by (repeat split).
  assert (Hvec : no_vector_params no_params) by (repeat split).
  assert (Hbaud : In (param (get_int no_params "~gps_baud") 9600)
                     supported_bauds) by (simpl; tauto).
  exact (proj1 (reconnect_configures_from_scratch um6_reg_length um6_firmware
                  no_params always_ack blank_snapshot 2
                  (on_exception (runtime_error "receive failed")
                     streaming_node)
                  Hrl Hvec eq_refl Hbaud (fun _ => eq_refl))).
Defined.

(** ** The flags written to the two configuration registers *)

Lemma testbit_to_uint32_high z n : 32 <= n -> Z.testbit (to_uint32 z) n = false.
Proof. intros Hn. unfold to_uint32. apply Z.mod_pow2_bits_high. lia. Qed.

Lemma testbit_uint32_flag f n : 0 <= f < 2 ^ 32 -> 32 <= n -> Z.testbit f n = false.
Proof.
  intros Hf Hn. rewrite <- (Z.mod_small f (2 ^ 32)) by exact Hf.
  apply Z.mod_pow2_bits_high. lia.
Qed.

Lemma testbit_disjoint a b n : Z.land a b = 0 -> Z.testbit a n && Z.testbit b n = false.
Proof. intros H. rewrite <- Z.land_spec, H. apply Z.testbit_0_l. Qed.

(** Bitwise reasoning on 32-bit register values: compare bit by bit, drop
    the wrap-around below bit 32, and decide by cases on the bits. *)
Ltac uint32_bits :=
  apply Z.bits_inj'; intros ?n ?Hn;
  match goal with
  | n : Z |- _ =>
      destruct (Z.lt_ge_cases n 32);
      repeat (rewrite ?Z.land_spec, ?Z.lor_spec, ?Z.testbit_0_l;
              rewrite ?testbit_to_uint32 by lia;
              rewrite ?testbit_to_uint32_high by lia)
  end.

(** X22: the misc-config register always carries the quaternion-estimate
    flag, and the magnetometer-update and accelerometer-update flags
    follow their parameters: set by default, cleared when ~mag_updates or
    ~accel_updates is false. *)
Theorem misc_config_flags_follow_parameters :
  forall (fw : Firmware) (mag_updates accel_updates : bool),
    0 <= UM6_MAG_UPDATE_ENABLED fw < 2 ^ 32 ->
    0 <= UM6_ACCEL_UPDATE_ENABLED fw < 2 ^ 32 ->
    Z.land (UM6_MAG_UPDATE_ENABLED fw) (UM6_QUAT_ESTIMATE_ENABLED fw) = 0 ->
    Z.land (UM6_ACCEL_UPDATE_ENABLED fw) (UM6_QUAT_ESTIMATE_ENABLED fw) = 0 ->
    Z.land (UM6_MAG_UPDATE_ENABLED fw) (UM6_ACCEL_UPDATE_ENABLED fw) = 0 ->
    let v := misc_config_value fw mag_updates accel_updates in
    Z.land v (to_uint32 (UM6_QUAT_ESTIMATE_ENABLED fw))
    = to_uint32 (UM6_QUAT_ESTIMATE_ENABLED fw) /\
    Z.land v (UM6_MAG_UPDATE_ENABLED fw)
    = (if mag_updates then UM6_MAG_UPDATE_ENABLED fw else 0) /\
    Z.land v (UM6_ACCEL_UPDATE_ENABLED fw)
    = (if accel_updates then UM6_ACCEL_UPDATE_ENABLED fw else 0).
Proof.
  intros fw mag_updates accel_updates Hm Ha Hmq Haq Hma v. subst v.
  unfold misc_config_value.
  split; [|split].
  - destruct mag_updates, accel_updates; uint32_bits;
      repeat match goal with
             | |- context [Z.testbit ?a ?n] => destruct (Z.testbit a n)
             end; reflexivity.
  - destruct mag_updates, accel_updates; uint32_bits;
      try (rewrite (testbit_uint32_flag (UM6_MAG_UPDATE_ENABLED fw))
             by assumption; rewrite ?andb_false_r; reflexivity);
      pose proof (testbit_disjoint _ _ n Hmq) as D1;
      pose proof (testbit_disjoint _ _ n Hma) as D2;
      destruct (Z.testbit (UM6_MAG_UPDATE_ENABLED fw) n),
               (Z.testbit (UM6_QUAT_ESTIMATE_ENABLED fw) n),
               (Z.testbit (UM6_ACCEL_UPDATE_ENABLED fw) n);
      cbn in *; congruence.
  - destruct mag_updates, accel_updates; uint32_bits;
      try (rewrite (testbit_uint32_flag (UM6_ACCEL_UPDATE_ENABLED fw))
             by assumption; rewrite ?andb_false_r; reflexivity);
      pose proof (testbit_disjoint _ _ n Haq) as D1;
      pose proof (testbit_disjoint _ _ n Hma) as D2;
      destruct (Z.testbit (UM6_MAG_UPDATE_ENABLED fw) n),
               (Z.testbit (UM6_QUAT_ESTIMATE_ENABLED fw) n),
               (Z.testbit (UM6_ACCEL_UPDATE_ENABLED fw) n);
      cbn in *; congruence.
Qed.

Lemma misc_config_flags_follow_parameters_witness :
  Z.land (misc_config_value um6_firmware false true)
         (UM6_MAG_UPDATE_ENABLED um6_firmware) = 0 /\
  Z.land (misc_config_value um6_firmware false true)
         (UM6_ACCEL_UPDATE_ENABLED um6_firmware)
  = UM6_ACCEL_UPDATE_ENABLED um6_firmware.
Proof.
  assert (Hm : 0 <= UM6_MAG_UPDATE_ENABLED um6_firmware < 2 ^ 32)
    by (vm_compute; split; [discriminate | reflexivity]).
  assert (Ha : 0 <= UM6_ACCEL_UPDATE_ENABLED um6_firmware < 2 ^ 32)
    by (vm_compute; split; [discriminate | reflexivity]).
  exact (proj2 (misc_config_flags_follow_parameters um6_firmware false true
                  Hm Ha eq_refl eq_refl eq_refl)).
Defined.

Lemma testbit_shifted_code c s g n :
  0 <= c <= 5 -> 0 <= s -> 0 <= n -> Z.land g (Z.shiftl 7 s) = 0 ->
  Z.testbit (Z.shiftl c s) n && Z.testbit g n = false.
Proof.
  intros Hc Hs Hn Hg. rewrite Z.shiftl_spec by exact Hn.
  destruct (Z.lt_ge_cases (n - s) 0) as [Hneg|Hpos].
  { rewrite Z.testbit_neg_r by exact Hneg. reflexivity. }
  destruct (Z.lt_ge_cases (n - s) 3) as [Hlow|Hhigh].
  - pose proof (testbit_disjoint _ _ n Hg) as D.
    rewrite Z.shiftl_spec, testbit_7 in D by lia.
    destruct (Z.ltb_spec (n - s) 3); [|lia].
    rewrite andb_true_r in D. rewrite D. apply andb_false_r.
  - rewrite testbit_code_high by lia. reflexivity.
Qed.

(** X23: whatever the parameters, the communication register written
    first enables every always-on output (broadcast, processed gyro,
    accelerometer and magnetometer, quaternion, Euler angles, covariance,
    temperature); the five GPS outputs are enabled in it exactly when
    ~gps_enable is true. *)
Theorem comm_register_output_flags :
  forall (rl : RegId -> Z) (fw : Firmware) (ps : ParamServer)
         (a : nat -> bool),
    In (param (get_int ps "~gps_baud") 9600) supported_bauds ->
    0 <= gps_flags fw < 2 ^ 32 ->
    0 <= UM6_BAUD_START_BIT fw -> 0 <= UM6_GPS_BAUD_START_BIT fw ->
    Z.land (gps_flags fw) (comm_flags fw) = 0 ->
    Z.land (gps_flags fw) (Z.shiftl 7 (UM6_BAUD_START_BIT fw)) = 0 ->
    Z.land (gps_flags fw) (Z.shiftl 7 (UM6_GPS_BAUD_START_BIT fw)) = 0 ->
    exists v rest,
      sent (snd (configureSensor rl fw ps (connect a)))
      = set (fresh rl COMMUNICATION) 0 v :: rest /\
      Z.land v (to_uint32 (comm_flags fw)) = to_uint32 (comm_flags fw) /\
      Z.land v (gps_flags fw)
      = (if param (get_bool ps "~gps_enable") false
         then gps_flags fw else 0).
Proof.
  intros rl fw ps a Hbaud Hg Hsb Htb Hgc Hgs Hgt.
  destruct (baud_supported _ Hbaud) as (c & Hc & Hrange).
  destruct (configureSensor_first_write rl fw ps a c Hc) as (rest & Hsent).
  eexists; exists rest. split; [exact Hsent|].
  unfold comm_reg_value.
  set (A := comm_flags fw) in *. set (G := gps_flags fw) in *.
  set (S5 := Z.shiftl 5 (UM6_BAUD_START_BIT fw)).
  set (Sc := Z.shiftl c (UM6_GPS_BAUD_START_BIT fw)).
  split.
  - destruct (param (get_bool ps "~gps_enable") false); uint32_bits;
      repeat match goal with
             | |- context [Z.testbit ?x ?n] => destruct (Z.testbit x n)
             end; reflexivity.
  - destruct (param (get_bool ps "~gps_enable") false); uint32_bits;
      try (rewrite (testbit_uint32_flag G) by assumption;
           rewrite ?andb_false_r; reflexivity);
      pose proof (testbit_disjoint _ _ n Hgc) as D1;
      assert (D2 : Z.testbit S5 n && Z.testbit G n = false)
        by (apply testbit_shifted_code; (assumption || lia));
      assert (D3 : Z.testbit Sc n && Z.testbit G n = false)
        by (apply testbit_shifted_code; (assumption || lia));
      destruct (Z.testbit A n), (Z.testbit G n), (Z.testbit S5 n),
               (Z.testbit Sc n);
      cbn in *; congruence.
Qed.

Lemma comm_register_output_flags_witness :
  exists v rest,
    sent (snd (configureSensor um6_reg_length um6_firmware gps_params
                 (connect always_ack)))
    = set (fresh um6_reg_length COMMUNICATION) 0 v :: rest /\
    Z.land v (gps_flags um6_firmware) = gps_flags um6_firmware.
Proof.
  assert (Hbaud : In (param (get_int gps_params "~gps_baud") 9600)
                     supported_bauds) by (simpl; tauto).
  assert (Hg : 0 <= gps_flags um6_firmware < 2 ^ 32)
    by (vm_compute; split; [discriminate | reflexivity]).
  assert (Hsb : 0 <= UM6_BAUD_START_BIT um6_firmware)
    by (vm_compute; discriminate).
  assert (Htb : 0 <= UM6_GPS_BAUD_START_BIT um6_firmware)
    by (vm_compute; discriminate).
  destruct (comm_register_output_flags um6_reg_length um6_firmware gps_params
              always_ack Hbaud Hg Hsb Htb eq_refl eq_refl eq_refl)
    as (v & rest & Hsent & _ & Hgps).
  exists v, rest. split; [exact Hsent | exact Hgps].
Defined.
